(** * Key management of the OQS provider (oqsprov/oqs_kmgmt.c)

    A shallow embedding of the key-management entry points of
    [oqs_kmgmt.c]: [oqsx_has], [oqsx_match], [oqsx_import], [oqsx_export],
    [oqsx_set_params] (with [set_property_query]) and [oqsx_load], together
    with the OpenSSL collaborators they call ([OSSL_PARAM_locate],
    [OSSL_PARAM_set_octet_string], [OSSL_PARAM_get_octet_string],
    [OSSL_PARAM_BLD_*], [CRYPTO_memcmp], [OPENSSL_clear_free], ...).

    Conventions.
    - A C [int] is a [Z]; a [size_t] length is a [nat]; a byte buffer is a
      [list Byte.byte]; a pointer that may be [NULL] is an [option].
    - Dereferencing [NULL] and reading or writing past the end of a buffer is
      the outcome [Fault].
    - Allocation, the OpenSSL error queue, released buffers and the calls made
      to the export callback live in a [World] that is threaded through the
      effectful functions.
    - The [OQS_KM_PRINTF] debug prints are not modelled. *)

From Stdlib Require Import ZArith NArith String List Lia Bool.
From Stdlib Require Strings.Byte.
From stdpp Require Import base option list gmap.

Local Open Scope Z_scope.

(** ** Outcomes: a result, or a fault of the C program *)

Inductive outcome (A : Type) : Type :=
| Done (a : A)
| Fault.
Arguments Done {A} a.
Arguments Fault {A}.

#[global] Instance outcome_ret : MRet outcome := λ A a, Done a.
#[global] Instance outcome_bind : MBind outcome :=
  λ A B f m, match m with Done a => f a | Fault => Fault end.

(** [*p] for a pointer that may be [NULL]. *)
Definition deref {A : Type} (p : option A) : outcome A :=
  match p with
  | Some a => Done a
  | None => Fault
  end.

(** ** Bytes, C truth values *)

Definition bytes : Type := list Byte.byte.

#[global] Instance byte_eq_dec : EqDecision Byte.byte := Byte.byte_eq_dec.

(** A C condition: non-zero is true. *)
Definition truthy (x : Z) : bool := negb (x =? 0).

(** The value of a C comparison or logical operator: 1 or 0. *)
Definition b2i (b : bool) : Z := if b then 1 else 0.

Definition is_null {A : Type} (p : option A) : bool :=
  match p with
  | Some _ => false
  | None => true
  end.

(** ** Selection bits (openssl/core_dispatch.h) *)

Definition OSSL_KEYMGMT_SELECT_PRIVATE_KEY : Z := 0x01.
Definition OSSL_KEYMGMT_SELECT_PUBLIC_KEY : Z := 0x02.
Definition OSSL_KEYMGMT_SELECT_DOMAIN_PARAMETERS : Z := 0x04.
Definition OSSL_KEYMGMT_SELECT_OTHER_PARAMETERS : Z := 0x80.
Definition OSSL_KEYMGMT_SELECT_ALL_PARAMETERS : Z :=
  Z.lor OSSL_KEYMGMT_SELECT_DOMAIN_PARAMETERS OSSL_KEYMGMT_SELECT_OTHER_PARAMETERS.
Definition OSSL_KEYMGMT_SELECT_KEYPAIR : Z :=
  Z.lor OSSL_KEYMGMT_SELECT_PRIVATE_KEY OSSL_KEYMGMT_SELECT_PUBLIC_KEY.

(** [(selection & flag) != 0] *)
Definition selected (selection flag : Z) : bool := truthy (Z.land selection flag).

(** ** The key object *)

(** Modelled from the spec: the declaration of [OQSX_KEY] (oqsx.h) is not
    among the sources.  The record has the fields that [oqs_kmgmt.c] reads
    and writes: the algorithm name, the property query, the declared lengths
    of the two keys and the two owned buffers, each of which may be absent
    ([NULL]). *)
Record OQSX_KEY : Type := mkOQSX_KEY {
  propq : option bytes;
  privkeylen : nat;
  pubkeylen : nat;
  oqs_name : string;
  privkey : option bytes;
  pubkey : option bytes;
}.

Definition set_propq (v : option bytes) (k : OQSX_KEY) : OQSX_KEY :=
  mkOQSX_KEY v (privkeylen k) (pubkeylen k) (oqs_name k) (privkey k) (pubkey k).
Definition set_privkey (v : option bytes) (k : OQSX_KEY) : OQSX_KEY :=
  mkOQSX_KEY (propq k) (privkeylen k) (pubkeylen k) (oqs_name k) v (pubkey k).
Definition set_pubkey (v : option bytes) (k : OQSX_KEY) : OQSX_KEY :=
  mkOQSX_KEY (propq k) (privkeylen k) (pubkeylen k) (oqs_name k) (privkey k) v.

(** ** [oqsx_has] (oqs_kmgmt.c, lines 58-78) *)

Definition oqsx_has (keydata : option OQSX_KEY) (selection : Z) : Z :=
  let ok := 0 in
  match keydata with
  | Some key =>
      let ok := 1 in
      let ok :=
        if selected selection OSSL_KEYMGMT_SELECT_PUBLIC_KEY
        then b2i (truthy ok && negb (is_null (pubkey key)))
        else ok in
      let ok :=
        if selected selection OSSL_KEYMGMT_SELECT_PRIVATE_KEY
        then b2i (truthy ok && negb (is_null (privkey key)))
        else ok in
      ok
  | None => ok
  end.

(** ** [strcmp] and [CRYPTO_memcmp] *)

(** [strcmp]: zero exactly on equal strings, otherwise the sign of the first
    difference. *)
Definition strcmp (a b : string) : Z :=
  match String.compare a b with
  | Eq => 0
  | Lt => -1
  | Gt => 1
  end.

(** The loop of [CRYPTO_memcmp]:
    [for (i = 0; i < len; i++) x |= a[i] ^ b[i];] *)
Fixpoint memcmp_loop (a b : bytes) (len : nat) (x : N) {struct len}
  : outcome N :=
  match len with
  | O => Done x
  | S len' =>
      match a, b with
      | ai :: a', bi :: b' =>
          memcmp_loop a' b' len' (N.lor x (N.lxor (Byte.to_N ai) (Byte.to_N bi)))
      | _, _ => Fault
      end
  end.

(** [CRYPTO_memcmp(in_a, in_b, len)]: a [NULL] argument has no readable
    byte. *)
Definition CRYPTO_memcmp (in_a in_b : option bytes) (len : nat) : outcome Z :=
  x ← memcmp_loop (default [] in_a) (default [] in_b) len 0%N;
  mret (Z.of_N x).

(** ** [oqsx_match] (oqs_kmgmt.c, lines 80-110) *)

(** C's [ok && rhs]: [rhs] is evaluated only when [ok] is non-zero. *)
Definition and_then (ok : Z) (rhs : outcome bool) : outcome Z :=
  if truthy ok then b ← rhs; mret (b2i b) else mret 0.

(** The block run for [OSSL_KEYMGMT_SELECT_DOMAIN_PARAMETERS]. *)
Definition match_domain_parameters (keydata1 keydata2 : option OQSX_KEY)
    (ok : Z) : outcome Z :=
  and_then ok
    (key1 ← deref keydata1;
     key2 ← deref keydata2;
     mret (negb (truthy (strcmp (oqs_name key1) (oqs_name key2))))).

(** The block run for [OSSL_KEYMGMT_SELECT_PRIVATE_KEY]. *)
Definition match_private_key (keydata1 keydata2 : option OQSX_KEY) (ok : Z)
  : outcome Z :=
  key1 ← deref keydata1;
  key2 ← deref keydata2;
  if (is_null (privkey key1) && negb (is_null (privkey key2)))
     || (negb (is_null (privkey key1)) && is_null (privkey key2))
     || truthy (strcmp (oqs_name key1) (oqs_name key2))
  then mret 0
  else
    and_then ok
      (if is_null (privkey key1) then mret true
       else
         r ← CRYPTO_memcmp (privkey key1) (privkey key2) (privkeylen key1);
         mret (r =? 0)).

(** The block run for [OSSL_KEYMGMT_SELECT_PUBLIC_KEY]. *)
Definition match_public_key (keydata1 keydata2 : option OQSX_KEY) (ok : Z)
  : outcome Z :=
  key1 ← deref keydata1;
  key2 ← deref keydata2;
  if (negb (is_null (pubkey key1)) && negb (is_null (pubkey key2)))
     || truthy (strcmp (oqs_name key1) (oqs_name key2))
  then mret 0
  else
    and_then ok
      (if is_null (pubkey key1) then mret true
       else
         r ← CRYPTO_memcmp (pubkey key1) (pubkey key2) (pubkeylen key1);
         mret (r =? 0)).

Definition oqsx_match (keydata1 keydata2 : option OQSX_KEY) (selection : Z)
  : outcome Z :=
  let ok := 1 in
  ok ← (if selected selection OSSL_KEYMGMT_SELECT_DOMAIN_PARAMETERS
        then match_domain_parameters keydata1 keydata2 ok
        else mret ok);
  ok ← (if selected selection OSSL_KEYMGMT_SELECT_PRIVATE_KEY
        then match_private_key keydata1 keydata2 ok
        else mret ok);
  ok ← (if selected selection OSSL_KEYMGMT_SELECT_PUBLIC_KEY
        then match_public_key keydata1 keydata2 ok
        else mret ok);
  mret ok.

(** ** Parameter arrays (openssl/params.h, openssl/core_names.h) *)

Definition OSSL_PARAM_INTEGER : Z := 1.
Definition OSSL_PARAM_UNSIGNED_INTEGER : Z := 2.
Definition OSSL_PARAM_REAL : Z := 3.
Definition OSSL_PARAM_UTF8_STRING : Z := 4.
Definition OSSL_PARAM_OCTET_STRING : Z := 5.

(** One element of an [OSSL_PARAM] array.  The array itself is a list; its
    terminating [OSSL_PARAM_END] is the end of the list, and a pointer to an
    element is its index. *)
Record OSSL_PARAM : Type := mkOSSL_PARAM {
  param_key : string;
  data_type : Z;
  data : option bytes;
  data_size : nat;
  return_size : nat;
}.

Definition OSSL_PKEY_PARAM_PUB_KEY : string := "pub".
Definition OSSL_PKEY_PARAM_PRIV_KEY : string := "priv".
Definition OSSL_PKEY_PARAM_ENCODED_PUBLIC_KEY : string := "encoded-pub-key".
Definition OSSL_PKEY_PARAM_PROPERTIES : string := "properties".

(** The scan of [OSSL_PARAM_locate]:
    [for (; p->key != NULL; p++) if (strcmp(key, p->key) == 0) return p;] *)
Fixpoint locate_from (p : list OSSL_PARAM) (key : string) (i : nat) : option nat :=
  match p with
  | [] => None
  | q :: p' =>
      if strcmp key (param_key q) =? 0 then Some i else locate_from p' key (S i)
  end.

(** [OSSL_PARAM_locate(p, key)]: [NULL] when the array pointer is [NULL]. *)
Definition OSSL_PARAM_locate (p : option (list OSSL_PARAM)) (key : string)
  : option nat :=
  match p with
  | Some l => locate_from l key 0
  | None => None
  end.

(** [OSSL_PARAM_locate_const]: the same scan, giving read access to the
    element found. *)
Definition OSSL_PARAM_locate_const (p : option (list OSSL_PARAM)) (key : string)
  : option OSSL_PARAM :=
  match p with
  | Some l => i ← OSSL_PARAM_locate p key; l !! i
  | None => None
  end.

(** [memcpy(dst, src, n)] on buffers: the first [n] bytes of [dst] are
    replaced by the first [n] bytes of [src]. *)
Definition memcpy (dst src : bytes) (n : nat) : outcome bytes :=
  if (n <=? length dst)%nat && (n <=? length src)%nat
  then Done (take n src ++ drop n dst)
  else Fault.

(** [OSSL_PARAM_set_octet_string(p, val, len)] on element [p] of [params]:
    the result and the array after the call. *)
Definition OSSL_PARAM_set_octet_string (params : option (list OSSL_PARAM))
    (p : nat) (val : option bytes) (len : nat)
  : outcome (Z * option (list OSSL_PARAM)) :=
  l ← deref params;
  q ← deref (l !! p);
  match val with
  | None =>
      mret (0, Some (<[p := mkOSSL_PARAM (param_key q) (data_type q) (data q)
                                         (data_size q) 0]> l))
  | Some v =>
      let q := mkOSSL_PARAM (param_key q) (data_type q) (data q) (data_size q) len in
      match data q with
      | None => mret (1, Some (<[p := q]> l))
      | Some d =>
          if negb (data_type q =? OSSL_PARAM_OCTET_STRING)
             || (data_size q <? len)%nat
          then mret (0, Some (<[p := q]> l))
          else
            d' ← memcpy d v len;
            mret (1, Some (<[p := mkOSSL_PARAM (param_key q) (data_type q) (Some d')
                                               (data_size q) len]> l))
      end
  end.

(** ** The world around a call *)

Inductive ossl_error : Type :=
| ERR_USER_UNEXPECTED_NULL  (** [ERR_raise(ERR_LIB_USER, OQSPROV_UNEXPECTED_NULL)] *)
| ERR_PROV_MALLOC_FAILURE.  (** [ERR_raise(ERR_LIB_PROV, ERR_R_MALLOC_FAILURE)] *)

Record World : Type := mkWorld {
  (** whether each of the coming allocations succeeds; all do once the list
      is used up *)
  allocs : list bool;
  (** the OpenSSL error queue, oldest first *)
  errors : list ossl_error;
  (** the content of each released buffer at the time of its release *)
  released : list bytes;
  (** the parameter arrays the export callback was invoked with, oldest
      first *)
  delivered : list (list OSSL_PARAM);
}.

Definition M (A : Type) : Type := World → outcome (A * World).

#[global] Instance M_ret : MRet M := λ A a w, Done (a, w).
#[global] Instance M_bind : MBind M :=
  λ A B f m w, match m w with Done (a, w') => f a w' | Fault => Fault end.

Definition lift {A : Type} (o : outcome A) : M A :=
  λ w, match o with Done a => Done (a, w) | Fault => Fault end.

(** Whether the next allocation succeeds. *)
Definition allocate : M bool :=
  λ w, match allocs w with
       | [] => Done (true, w)
       | b :: rest => Done (b, mkWorld rest (errors w) (released w) (delivered w))
       end.

Definition ERR_raise (e : ossl_error) : M unit :=
  λ w, Done (tt, mkWorld (allocs w) (errors w ++ [e]) (released w) (delivered w)).

Definition release (b : bytes) : M unit :=
  λ w, Done (tt, mkWorld (allocs w) (errors w) (released w ++ [b]) (delivered w)).

(** [OPENSSL_free(p)]: nothing for [NULL]. *)
Definition OPENSSL_free (p : option bytes) : M unit :=
  match p with
  | Some b => release b
  | None => mret tt
  end.

(** [OPENSSL_clear_free(p, len)]: nothing for [NULL]; otherwise the first
    [len] bytes are overwritten with zeros before the buffer is released. *)
Definition OPENSSL_clear_free (p : option bytes) (len : nat) : M unit :=
  match p with
  | Some b =>
      b' ← lift (memcpy b (replicate len Byte.x00) len);
      release b'
  | None => mret tt
  end.

(** The string a [char *] points to: the bytes before the first NUL. *)
Fixpoint c_string (b : bytes) : outcome bytes :=
  match b with
  | [] => Fault
  | c :: b' =>
      if decide (c = Byte.x00) then Done []
      else s ← c_string b'; mret (c :: s)
  end.

(** [OPENSSL_strdup(str)] for a non-[NULL] [str]: [NULL] when the allocation
    fails. *)
Definition OPENSSL_strdup (str : bytes) : M (option bytes) :=
  s ← lift (c_string str);
  ok ← allocate;
  mret (if ok : bool then Some s else None).

(** [OSSL_PARAM_get_octet_string(p, &val, max_len, &used_len)]: the result
    and [val] after the call.  A [NULL] [val] is allocated; otherwise the
    octets are stored into the buffer [val] points to, [max_len] at most. *)
Definition OSSL_PARAM_get_octet_string (p : OSSL_PARAM) (val : option bytes)
    (max_len : nat) : M (Z * option bytes) :=
  if negb (data_type p =? OSSL_PARAM_OCTET_STRING) then mret (0, val)
  else
    let sz := data_size p in
    match data p with
    | None => mret (0, val)
    | Some d =>
        match val with
        | None =>
            ok ← allocate;
            if ok : bool then
              q ← lift (memcpy (replicate sz Byte.x00) d sz);
              mret (1, Some q)
            else mret (0, None)
        | Some v =>
            if (max_len <? sz)%nat then mret (0, val)
            else
              v' ← lift (memcpy v d sz);
              mret (1, Some v')
        end
    end.

(** ** [set_property_query] and [oqsx_set_params] (oqs_kmgmt.c, lines
    235-276) *)

Definition set_property_query (oqsxkey : OQSX_KEY) (propq_arg : option bytes)
  : M (Z * OQSX_KEY) :=
  OPENSSL_free (propq oqsxkey);;
  let oqsxkey := set_propq None oqsxkey in
  match propq_arg with
  | Some str =>
      dup ← OPENSSL_strdup str;
      let oqsxkey := set_propq dup oqsxkey in
      if is_null dup then
        ERR_raise ERR_PROV_MALLOC_FAILURE;;
        mret (0, oqsxkey)
      else mret (1, oqsxkey)
  | None => mret (1, oqsxkey)
  end.

(** The result and the key object after the call. *)
Definition oqsx_set_params (key : option OQSX_KEY)
    (params : option (list OSSL_PARAM)) : M (Z * option OQSX_KEY) :=
  '(go_on, key) ←
    match OSSL_PARAM_locate_const params OSSL_PKEY_PARAM_ENCODED_PUBLIC_KEY with
    | Some p =>
        oqsxkey ← lift (deref key);
        if negb (data_size p =? pubkeylen oqsxkey)%nat then mret (false, key)
        else
          '(got, pub) ← OSSL_PARAM_get_octet_string p (pubkey oqsxkey)
                                                    (pubkeylen oqsxkey);
          let oqsxkey := set_pubkey pub oqsxkey in
          if negb (truthy got) then mret (false, Some oqsxkey)
          else
            OPENSSL_clear_free (privkey oqsxkey) (privkeylen oqsxkey);;
            mret (true, Some (set_privkey None oqsxkey))
    | None => mret (true, key)
    end;
  if negb go_on then mret (0, key)
  else
    match OSSL_PARAM_locate_const params OSSL_PKEY_PARAM_PROPERTIES with
    | Some p =>
        if negb (data_type p =? OSSL_PARAM_UTF8_STRING) then mret (0, key)
        else
          oqsxkey ← lift (deref key);
          '(set, oqsxkey) ← set_property_query oqsxkey (data p);
          if negb (truthy set) then mret (0, Some oqsxkey)
          else mret (1, Some oqsxkey)
    | None => mret (1, key)
    end.

(** ** [oqsx_import] (oqs_kmgmt.c, lines 112-127) *)

Section FromData.

(** [oqsx_key_fromdata(key, params, include_private)] is defined in
    oqsx_key.c, which is not among the sources: [oqsx_import] is embedded
    over any function of its type, giving the result and the key object
    after the call. *)
Variable oqsx_key_fromdata :
  OQSX_KEY → option (list OSSL_PARAM) → Z → M (Z * OQSX_KEY).

(** The result and the key object after the call. *)
Definition oqsx_import (keydata : option OQSX_KEY) (selection : Z)
    (params : option (list OSSL_PARAM)) : M (Z * option OQSX_KEY) :=
  let ok := 0 in
  match keydata with
  | None =>
      ERR_raise ERR_USER_UNEXPECTED_NULL;;
      mret (ok, keydata)
  | Some key =>
      if selected selection OSSL_KEYMGMT_SELECT_ALL_PARAMETERS then
        '(imported, key) ← oqsx_key_fromdata key params 1;
        mret (if truthy imported then 1 else ok, Some key)
      else mret (ok, Some key)
  end.

End FromData.

(** Modelled from the spec: [oqsx_key_fromdata] (oqsx_key.c) is not among the
    sources.  Following "populates the Key Object's fields from a named
    parameter set; fails with InvalidInput if required parameters are absent
    or malformed" and "a public-key byte length that does not match the
    registry length fails, and the target object retains no partial data":
    every key parameter present must be an octet string of the declared
    length, at least one must be present, and the key object is written only
    once all of them were checked. *)
Definition oqsx_key_fromdata_model (key : OQSX_KEY)
    (params : option (list OSSL_PARAM)) (include_private : Z)
  : M (Z * OQSX_KEY) :=
  let well_formed (p : OSSL_PARAM) (len : nat) : option bytes :=
    if (data_type p =? OSSL_PARAM_OCTET_STRING) && (data_size p =? len)%nat
    then d ← data p; (if (len <=? length d)%nat then Some (take len d) else None)
    else None in
  let pub := OSSL_PARAM_locate_const params OSSL_PKEY_PARAM_PUB_KEY in
  let priv :=
    if truthy include_private
    then OSSL_PARAM_locate_const params OSSL_PKEY_PARAM_PRIV_KEY
    else None in
  match pub, priv with
  | None, None => mret (0, key)
  | Some p, None =>
      match well_formed p (pubkeylen key) with
      | Some b => mret (1, set_pubkey (Some b) key)
      | None => mret (0, key)
      end
  | None, Some q =>
      match well_formed q (privkeylen key) with
      | Some b => mret (1, set_privkey (Some b) key)
      | None => mret (0, key)
      end
  | Some p, Some q =>
      match well_formed p (pubkeylen key), well_formed q (privkeylen key) with
      | Some b, Some c => mret (1, set_privkey (Some c) (set_pubkey (Some b) key))
      | _, _ => mret (0, key)
      end
  end.

(** ** [oqsx_export] (oqs_kmgmt.c, lines 129-171) *)

(** A parameter builder: the definitions pushed so far. *)
Definition OSSL_PARAM_BLD : Type := list OSSL_PARAM.

(** [OSSL_PARAM_BLD_new()]: [NULL] when the allocation fails. *)
Definition OSSL_PARAM_BLD_new : M (option OSSL_PARAM_BLD) :=
  ok ← allocate;
  mret (if ok : bool then Some [] else None).

(** [OSSL_PARAM_BLD_to_param(bld)]: the array of the pushed definitions, or
    [NULL] when the allocation fails. *)
Definition OSSL_PARAM_BLD_to_param (bld : OSSL_PARAM_BLD)
  : M (option (list OSSL_PARAM)) :=
  ok ← allocate;
  mret (if ok : bool then Some bld else None).

(** [param_cb(params, cbarg)]: the callback's result; the call is recorded. *)
Definition invoke (param_cb : list OSSL_PARAM → Z) (params : list OSSL_PARAM)
  : M Z :=
  λ w, Done (param_cb params,
             mkWorld (allocs w) (errors w) (released w) (delivered w ++ [params])).

(** [OSSL_PARAM_free] and [OSSL_PARAM_BLD_free] release what the two
    functions above allocated and are not recorded. *)
Definition oqsx_export (keydata : option OQSX_KEY) (selection : Z)
    (param_cb : list OSSL_PARAM → Z) : M Z :=
  let params : option (list OSSL_PARAM) := None in
  let ret := 0 in
  match keydata with
  | None =>
      ERR_raise ERR_USER_UNEXPECTED_NULL;;
      mret 0
  | Some key =>
      tmpl ← OSSL_PARAM_BLD_new;
      match tmpl with
      | None =>
          ERR_raise ERR_USER_UNEXPECTED_NULL;;
          mret 0
      | Some tmpl =>
          (** [go_on = false] is [goto err] *)
          '(go_on, params) ←
            (if selected selection OSSL_KEYMGMT_SELECT_ALL_PARAMETERS
                || selected selection OSSL_KEYMGMT_SELECT_KEYPAIR
             then
               '(go_on, params) ←
                 match OSSL_PARAM_locate params OSSL_PKEY_PARAM_PUB_KEY with
                 | Some p =>
                     '(set, params) ←
                       lift (OSSL_PARAM_set_octet_string params p (pubkey key)
                                                         (pubkeylen key));
                     mret (truthy set, params)
                 | None => mret (true, params)
                 end;
               if negb go_on then mret (false, params)
               else
                 match OSSL_PARAM_locate params OSSL_PKEY_PARAM_PRIV_KEY with
                 | Some p =>
                     '(set, params) ←
                       lift (OSSL_PARAM_set_octet_string params p (privkey key)
                                                         (privkeylen key));
                     mret (truthy set, params)
                 | None => mret (true, params)
                 end
             else mret (true, params));
          if negb go_on then mret ret
          else
            params ← OSSL_PARAM_BLD_to_param tmpl;
            match params with
            | None => mret ret
            | Some params => invoke param_cb params
            end
      end
  end.

(** ** [oqsx_load] (oqs_kmgmt.c, lines 343-356) *)

Section Detach.

(** Key pointers are the values of [K], the cells that hold one are
    addressed by [addr], and [sizeof_key_ptr] is [sizeof(key)], the size of
    a key pointer on the platform. *)
Context {K : Type} `{Countable addr}.
Variable sizeof_key_ptr : nat.

(** [reference] is the address of a cell that holds a key pointer; the
    memory is the content of every such cell.  The result and the memory
    after the call. *)
Definition oqsx_load (reference : addr) (reference_sz : nat)
    (mem : gmap addr (option K)) : outcome (option K * gmap addr (option K)) :=
  let key : option K := None in
  if (reference_sz =? sizeof_key_ptr)%nat then
    key ← deref (mem !! reference);
    mret (key, <[reference := None]> mem)
  else mret (None, mem).

End Detach.

(** ** Invariants of the data model *)

(** An owned key buffer holds exactly the declared number of bytes. *)
Definition key_ok (k : OQSX_KEY) : bool :=
  match privkey k with
  | Some b => (length b =? privkeylen k)%nat
  | None => true
  end
  && match pubkey k with
     | Some b => (length b =? pubkeylen k)%nat
     | None => true
     end.

(** The declared lengths derive from the registry entry of the algorithm
    name: two objects of one name declare the same lengths. *)
Definition same_registry_entry (k1 k2 : OQSX_KEY) : bool :=
  if String.eqb (oqs_name k1) (oqs_name k2)
  then (privkeylen k1 =? privkeylen k2)%nat && (pubkeylen k1 =? pubkeylen k2)%nat
  else true.

(** What the private-key part of a match compares: presence, algorithm name
    and, when both keys are present, their bytes. *)
Definition private_parts_agree (k1 k2 : OQSX_KEY) : Prop :=
  is_null (privkey k1) = is_null (privkey k2)
  ∧ oqs_name k1 = oqs_name k2
  ∧ ∀ b1 b2, privkey k1 = Some b1 → privkey k2 = Some b2 → b1 = b2.

(** ** Sample objects *)

(** A world with an empty error queue in which every allocation succeeds. *)
Definition quiet : World := mkWorld [] [] [] [].

Definition sample_key : OQSX_KEY :=
  mkOQSX_KEY None 3 2 "sample-kem"
    (Some [Byte.x11; Byte.x12; Byte.x13]) (Some [Byte.xa1; Byte.xa2]).

(** An independently generated key of the same algorithm. *)
Definition sample_peer : OQSX_KEY :=
  mkOQSX_KEY None 3 2 "sample-kem"
    (Some [Byte.x21; Byte.x22; Byte.x23]) (Some [Byte.xb1; Byte.xb2]).

(** Modelled from the spec: [oqsx_key_new] (oqsx_key.c) is not among the
    sources; "Construct: new Key Object with empty key buffers, sized per the
    registry". *)
Definition sample_fresh : OQSX_KEY :=
  mkOQSX_KEY None 3 2 "sample-kem" None None.

Definition sample_encoded_pub (b : bytes) : OSSL_PARAM :=
  mkOSSL_PARAM OSSL_PKEY_PARAM_ENCODED_PUBLIC_KEY OSSL_PARAM_OCTET_STRING
    (Some b) (length b) 0.

Definition sample_pub (b : bytes) : OSSL_PARAM :=
  mkOSSL_PARAM OSSL_PKEY_PARAM_PUB_KEY OSSL_PARAM_OCTET_STRING
    (Some b) (length b) 0.

(** An export callback that accepts whatever it is given. *)
Definition accept (params : list OSSL_PARAM) : Z := 1.

(** ** [oqsx_get_params] (oqs_kmgmt.c, lines 189-218) *)

Definition OSSL_PKEY_PARAM_BITS : string := "bits".
Definition OSSL_PKEY_PARAM_SECURITY_BITS : string := "security-bits".
Definition OSSL_PKEY_PARAM_MAX_SIZE : string := "max-size".

Section GetParams.

(** [oqsx_key_parambits] and [oqsx_key_maxsize] are defined in oqsx_key.c,
    which is not among the sources, and how [OSSL_PARAM_set_int] lays an
    [int] out in the data buffer depends on the platform: [oqsx_get_params]
    is embedded over any three functions of their types.
    [OSSL_PARAM_set_int] gives its result and the array after the call. *)
Variable oqsx_key_parambits : option OQSX_KEY → outcome Z.
Variable oqsx_key_maxsize : option OQSX_KEY → outcome Z.
Variable OSSL_PARAM_set_int :
  option (list OSSL_PARAM) → nat → Z → outcome (Z * option (list OSSL_PARAM)).

(** [if ((p = OSSL_PARAM_locate(params, name)) != NULL
         && !OSSL_PARAM_set_int(p, value)) return 0;]
    The flag is false when the function returns 0 here. *)
Definition get_int (params : option (list OSSL_PARAM)) (name : string)
    (value : outcome Z) : outcome (bool * option (list OSSL_PARAM)) :=
  match OSSL_PARAM_locate params name with
  | Some p =>
      v ← value;
      '(set, params) ← OSSL_PARAM_set_int params p v;
      mret (truthy set, params)
  | None => mret (true, params)
  end.

(** [if ((p = OSSL_PARAM_locate(params, name)) != NULL) {
         if (!OSSL_PARAM_set_octet_string(p, oqsxk->part, oqsxk->len))
             return 0; }] *)
Definition get_octets (params : option (list OSSL_PARAM)) (name : string)
    (oqsxk : option OQSX_KEY) (part : OQSX_KEY → option bytes)
    (len : OQSX_KEY → nat) : outcome (bool * option (list OSSL_PARAM)) :=
  match OSSL_PARAM_locate params name with
  | Some p =>
      k ← deref oqsxk;
      '(set, params) ← OSSL_PARAM_set_octet_string params p (part k) (len k);
      mret (truthy set, params)
  | None => mret (true, params)
  end.

(** The result and the parameter array after the call. *)
Definition oqsx_get_params (key : option OQSX_KEY)
    (params : option (list OSSL_PARAM))
  : outcome (Z * option (list OSSL_PARAM)) :=
  let oqsxk := key in
  '(go_on, params) ←
    get_int params OSSL_PKEY_PARAM_BITS (oqsx_key_parambits oqsxk);
  if negb go_on then mret (0, params) else
  '(go_on, params) ←
    get_int params OSSL_PKEY_PARAM_SECURITY_BITS (oqsx_key_parambits oqsxk);
  if negb go_on then mret (0, params) else
  '(go_on, params) ←
    get_int params OSSL_PKEY_PARAM_MAX_SIZE (oqsx_key_maxsize oqsxk);
  if negb go_on then mret (0, params) else
  '(go_on, params) ←
    get_octets params OSSL_PKEY_PARAM_ENCODED_PUBLIC_KEY oqsxk pubkey pubkeylen;
  if negb go_on then mret (0, params) else
  '(go_on, params) ←
    get_octets params OSSL_PKEY_PARAM_PUB_KEY oqsxk pubkey pubkeylen;
  if negb go_on then mret (0, params) else
  '(go_on, params) ←
    get_octets params OSSL_PKEY_PARAM_PRIV_KEY oqsxk privkey privkeylen;
  if negb go_on then mret (0, params) else
  mret (1, params).

End GetParams.

(** The names [oqsx_get_params] looks up, in its order. *)
Definition gettable_names : list string :=
  [OSSL_PKEY_PARAM_BITS; OSSL_PKEY_PARAM_SECURITY_BITS;
   OSSL_PKEY_PARAM_MAX_SIZE; OSSL_PKEY_PARAM_ENCODED_PUBLIC_KEY;
   OSSL_PKEY_PARAM_PUB_KEY; OSSL_PKEY_PARAM_PRIV_KEY].

(** The array asks for [name], in its element [i], and for no other name
    that [oqsx_get_params] looks up. *)
Definition asks_only (params : option (list OSSL_PARAM)) (name : string)
    (i : nat) : bool :=
  bool_decide (OSSL_PARAM_locate params name = Some i)
  && forallb (λ n, String.eqb n name || is_null (OSSL_PARAM_locate params n))
       gettable_names.

(** The key part that [oqsx_get_params] hands out under a name: the buffer
    of the key object and its declared length. *)
Definition key_part (name : string) (key : OQSX_KEY)
  : option (option bytes * nat) :=
  if String.eqb name OSSL_PKEY_PARAM_ENCODED_PUBLIC_KEY
     || String.eqb name OSSL_PKEY_PARAM_PUB_KEY
  then Some (pubkey key, pubkeylen key)
  else if String.eqb name OSSL_PKEY_PARAM_PRIV_KEY
  then Some (privkey key, privkeylen key)
  else None.

(** An element with its buffer and reported size replaced. *)
Definition answered (q : OSSL_PARAM) (d : option bytes) (size : nat)
  : OSSL_PARAM :=
  mkOSSL_PARAM (param_key q) (data_type q) d (data_size q) size.

(** ** The generation context (oqs_kmgmt.c, lines 49-56 and 290-393) *)

Definition OSSL_PKEY_PARAM_GROUP_NAME : string := "group".
Definition OSSL_KDF_PARAM_PROPERTIES : string := "properties".

(** [OPENSSL_strdup(str)] for a string constant: [NULL] when the allocation
    fails. *)
Definition OPENSSL_strdup_name (str : string) : M (option string) :=
  ok ← allocate;
  mret (if ok : bool then Some str else None).

(** [OPENSSL_strdup(str)] for a pointer that may be [NULL]. *)
Definition OPENSSL_strdup_ptr (str : option bytes) : M (option bytes) :=
  match str with
  | Some s => OPENSSL_strdup s
  | None => mret None
  end.

Section Generation.

(** Library contexts and provider contexts are opaque here;
    [PROV_OQS_LIBCTX_OF] (oqsx.h) is not among the sources. *)
Context {OSSL_LIB_CTX PROVCTX : Type}.
Variable PROV_OQS_LIBCTX_OF : PROVCTX → OSSL_LIB_CTX.

(** [struct oqsx_gen_ctx] *)
Record oqsx_gen_ctx : Type := mkoqsx_gen_ctx {
  gctx_libctx : OSSL_LIB_CTX;
  gctx_propq : option bytes;
  gctx_oqs_name : option string;
  gctx_tls_name : option bytes;
  gctx_primitive : Z;
  gctx_selection : Z;
}.

(** [oqsx_key_new(libctx, oqs_name, tls_name, primitive, propq)] and
    [oqsx_key_gen(key)] are defined in oqsx_key.c, which is not among the
    sources: generation is embedded over any two functions of their types.
    [oqsx_key_gen] gives its result and the key object after the call. *)
Variable oqsx_key_new :
  OSSL_LIB_CTX → option string → option string → Z → option bytes →
  M (option OQSX_KEY).
Variable oqsx_key_gen : OQSX_KEY → M (Z * OQSX_KEY).

Definition oqsx_gen_init (provctx : PROVCTX) (selection : Z)
    (oqs_name : string) (primitive : Z) : M (option oqsx_gen_ctx) :=
  let libctx := PROV_OQS_LIBCTX_OF provctx in
  zalloc ← allocate;
  if zalloc : bool then
    name ← OPENSSL_strdup_name oqs_name;
    mret (Some (mkoqsx_gen_ctx libctx None name None primitive selection))
  else mret None.




(** The result and the context after the call. *)
Definition oqsx_gen_set_params (genctx : option oqsx_gen_ctx)
    (params : option (list OSSL_PARAM)) : M (Z * option oqsx_gen_ctx) :=
  match genctx with
  | None => mret (0, None)
  | Some gctx =>
      gctx ←
        match OSSL_PARAM_locate_const params OSSL_PKEY_PARAM_GROUP_NAME with
        | Some p =>
            let algname := data p in
            dup ← OPENSSL_strdup_ptr algname;
            mret (mkoqsx_gen_ctx (gctx_libctx gctx) (gctx_propq gctx)
                    (gctx_oqs_name gctx) dup (gctx_primitive gctx)
                    (gctx_selection gctx))
        | None => mret gctx
        end;
      match OSSL_PARAM_locate_const params OSSL_KDF_PARAM_PROPERTIES with
      | Some p =>
          if negb (data_type p =? OSSL_PARAM_UTF8_STRING)
          then mret (0, Some gctx)
          else
            OPENSSL_free (gctx_propq gctx);;
            dup ← OPENSSL_strdup_ptr (data p);
            let gctx :=
              mkoqsx_gen_ctx (gctx_libctx gctx) dup (gctx_oqs_name gctx)
                (gctx_tls_name gctx) (gctx_primitive gctx)
                (gctx_selection gctx) in
            if is_null dup then mret (0, Some gctx) else mret (1, Some gctx)
      | None => mret (1, Some gctx)
      end
  end.

End Generation.

(** Whether the next allocation in a world succeeds. *)
Definition next_allocation (w : World) : bool :=
  match allocs w with
  | b :: _ => b
  | [] => true
  end.

(** ** More sample objects *)

(** A request for one octet-string parameter, with a buffer to fill. *)
Definition sample_request (name : string) (buffer : bytes) : OSSL_PARAM :=
  mkOSSL_PARAM name OSSL_PARAM_OCTET_STRING (Some buffer) (length buffer) 0.

(** A request for the size of one octet-string parameter. *)
Definition sample_size_request (name : string) : OSSL_PARAM :=
  mkOSSL_PARAM name OSSL_PARAM_OCTET_STRING None 0 0.

(** A property query: the string [a=b]. *)
Definition sample_query : bytes :=
  [Byte.x61; Byte.x3d; Byte.x62; Byte.x00].

Definition sample_properties (type : Z) : OSSL_PARAM :=
  mkOSSL_PARAM OSSL_PKEY_PARAM_PROPERTIES type (Some sample_query)
    (length sample_query) 0.

(** Collaborators that stand for the absent ones in examples: integers are
    not written ([sample_set_int] rejects them), and every key is reported
    with the same strength and size. *)
Definition sample_set_int (params : option (list OSSL_PARAM)) (p : nat)
    (v : Z) : outcome (Z * option (list OSSL_PARAM)) := Done (0, params).
Definition sample_parambits (key : option OQSX_KEY) : outcome Z := Done 128.


(** A generation context for the sample algorithm, and a group-name
    parameter: the string [x]. *)
Definition sample_gctx : @oqsx_gen_ctx unit :=
  mkoqsx_gen_ctx tt None (Some "sample-kem"%string) None 0
    OSSL_KEYMGMT_SELECT_KEYPAIR.

Definition sample_group : OSSL_PARAM :=
  mkOSSL_PARAM OSSL_PKEY_PARAM_GROUP_NAME OSSL_PARAM_UTF8_STRING
    (Some [Byte.x78; Byte.x00]) 2 0.

(** * Properties *)

Ltac run :=
  unfold mbind, mret, outcome_bind, outcome_ret, M_bind, M_ret, lift in *;
  cbn [deref] in *.

(** ** Strings and constant-time comparison *)

Lemma string_compare_refl (a : string) : String.compare a a = Eq.
Proof.
  induction a as [|c a IH]; simpl; [reflexivity|].
  unfold Ascii.compare. rewrite N.compare_refl. exact IH.
Qed.

Lemma strcmp_eq (a b : string) : strcmp a b = 0 ↔ a = b.
Proof.
  unfold strcmp. split.
  - intros H. apply String.compare_eq_iff.
    destruct (String.compare a b); [reflexivity | discriminate | discriminate].
  - intros ->. rewrite string_compare_refl. reflexivity.
Qed.

Lemma strcmp_truthy (a b : string) : truthy (strcmp a b) = false ↔ a = b.
Proof.
  rewrite <- strcmp_eq. unfold truthy.
  destruct (Z.eqb_spec (strcmp a b) 0); simpl; split; intros; congruence.
Qed.

Lemma byte_to_N_inj (x y : Byte.byte) : Byte.to_N x = Byte.to_N y → x = y.
Proof.
  intros E. pose proof (Byte.of_to_N x) as Hx. rewrite E, Byte.of_to_N in Hx.
  congruence.
Qed.

Lemma memcmp_loop_spec (n : nat) :
  ∀ (a b : bytes) (x : N),
    (n ≤ length a)%nat → (n ≤ length b)%nat →
    ∃ r, memcmp_loop a b n x = Done r
         ∧ (r = 0%N ↔ x = 0%N ∧ take n a = take n b).
Proof.
  induction n as [|n IH]; intros a b x Ha Hb.
  - exists x. simpl. rewrite !take_0. intuition.
  - destruct a as [|ai a]; [simpl in Ha; lia|].
    destruct b as [|bi b]; [simpl in Hb; lia|].
    simpl in Ha, Hb.
    destruct (IH a b (N.lor x (N.lxor (Byte.to_N ai) (Byte.to_N bi))))
      as (r & Hr & Hiff); [lia | lia |].
    exists r. split; [exact Hr|].
    rewrite Hiff, N.lor_eq_0_iff. cbn [take]. split.
    + intros [[Hx Hxor] Ht]. apply N.lxor_eq, byte_to_N_inj in Hxor.
      subst. rewrite Ht. auto.
    + intros [Hx Ht]. injection Ht as -> Ht.
      rewrite N.lxor_nilpotent. auto.
Qed.

Lemma CRYPTO_memcmp_spec (a b : bytes) (n : nat) :
  (n ≤ length a)%nat → (n ≤ length b)%nat →
  ∃ r, CRYPTO_memcmp (Some a) (Some b) n = Done r
       ∧ (r = 0 ↔ take n a = take n b).
Proof.
  intros Ha Hb. unfold CRYPTO_memcmp. simpl.
  destruct (memcmp_loop_spec n a b 0%N Ha Hb) as (r & -> & Hiff).
  exists (Z.of_N r). run. split; [reflexivity|].
  split.
  - intros Hr. apply Hiff. lia.
  - intros Ht. assert (r = 0%N) as -> by (apply Hiff; auto). reflexivity.
Qed.

(** ** [oqsx_has] *)

Lemma oqsx_has_bool (keydata : option OQSX_KEY) (selection : Z) :
  oqsx_has keydata selection = 0 ∨ oqsx_has keydata selection = 1.
Proof.
  unfold oqsx_has. destruct keydata as [key|]; [|auto].
  destruct (selected selection OSSL_KEYMGMT_SELECT_PUBLIC_KEY),
    (selected selection OSSL_KEYMGMT_SELECT_PRIVATE_KEY),
    (pubkey key), (privkey key); simpl; auto.
Qed.

(** C5: on a non-null key object, [oqsx_has] answers 1 exactly when every
    key part the selection asks for (public, private) is present; its answer
    is 0 otherwise, and a selection that asks for no key part, such as one
    for the domain parameters alone, is always satisfied. *)
Theorem oqsx_has_spec (key : OQSX_KEY) (selection : Z) :
  (oqsx_has (Some key) selection = 1
   ↔ (selected selection OSSL_KEYMGMT_SELECT_PUBLIC_KEY = true
        → pubkey key ≠ None)
     ∧ (selected selection OSSL_KEYMGMT_SELECT_PRIVATE_KEY = true
        → privkey key ≠ None))
  ∧ (oqsx_has (Some key) selection = 0 ∨ oqsx_has (Some key) selection = 1)
  ∧ oqsx_has (Some key) OSSL_KEYMGMT_SELECT_DOMAIN_PARAMETERS = 1.
Proof.
  split; [|split; [apply oqsx_has_bool | reflexivity]].
  unfold oqsx_has.
  destruct (selected selection OSSL_KEYMGMT_SELECT_PUBLIC_KEY),
    (selected selection OSSL_KEYMGMT_SELECT_PRIVATE_KEY),
    (pubkey key), (privkey key); simpl;
    (split; [intros H; try discriminate H; split; intros; congruence
            | intros [H1 H2]; try reflexivity; exfalso;
              first [ now apply H1 | now apply H2 ]]).
Qed.

(** C9: with a null key handle [oqsx_has] answers 0 for every selection,
    a selection for the domain parameters alone included; it reads no field
    of the key. *)
Theorem oqsx_has_null (selection : Z) :
  oqsx_has None selection = 0
  ∧ oqsx_has None OSSL_KEYMGMT_SELECT_DOMAIN_PARAMETERS = 0.
Proof. split; reflexivity. Qed.

(** ** [oqsx_match] *)

Lemma and_then_done (ok : Z) (b : bool) :
  and_then ok (Done b) = Done (b2i (truthy ok && b)).
Proof. unfold and_then. destruct (truthy ok); reflexivity. Qed.

Lemma and_then_one (ok : Z) (rhs : outcome bool) :
  and_then ok rhs = Done 1 → truthy ok = true.
Proof. unfold and_then. destruct (truthy ok); [reflexivity | discriminate]. Qed.

Lemma b2i_bool (b : bool) : b2i b = 0 ∨ b2i b = 1.
Proof. destruct b; auto. Qed.

Lemma b2i_one (b : bool) : b2i b = 1 ↔ b = true.
Proof. destruct b; simpl; split; intros; congruence. Qed.

Lemma key_ok_privkey (k : OQSX_KEY) (b : bytes) :
  key_ok k = true → privkey k = Some b → length b = privkeylen k.
Proof.
  unfold key_ok. intros H E. rewrite E in H.
  apply andb_true_iff in H as [H _]. now apply Nat.eqb_eq.
Qed.

Lemma same_registry_entry_privkeylen (k1 k2 : OQSX_KEY) :
  same_registry_entry k1 k2 = true → oqs_name k1 = oqs_name k2 →
  privkeylen k1 = privkeylen k2.
Proof.
  unfold same_registry_entry. intros H E. rewrite E, String.eqb_refl in H.
  apply andb_true_iff in H as [H _]. now apply Nat.eqb_eq.
Qed.

Lemma match_domain_parameters_spec (k1 k2 : OQSX_KEY) (ok : Z) :
  ∃ r, match_domain_parameters (Some k1) (Some k2) ok = Done r
       ∧ (r = 0 ∨ r = 1)
       ∧ (r = 1 ↔ truthy ok = true ∧ oqs_name k1 = oqs_name k2).
Proof.
  unfold match_domain_parameters. run. rewrite and_then_done.
  eexists. split; [reflexivity|]. split; [apply b2i_bool|].
  rewrite b2i_one, andb_true_iff, negb_true_iff, strcmp_truthy. reflexivity.
Qed.

Lemma match_private_key_spec (k1 k2 : OQSX_KEY) (ok : Z) :
  key_ok k1 = true → key_ok k2 = true → same_registry_entry k1 k2 = true →
  ∃ r, match_private_key (Some k1) (Some k2) ok = Done r
       ∧ (r = 0 ∨ r = 1)
       ∧ (r = 1 ↔ truthy ok = true ∧ private_parts_agree k1 k2).
Proof.
  intros W1 W2 WR. unfold match_private_key, private_parts_agree. run.
  destruct (privkey k1) as [b1|] eqn:P1, (privkey k2) as [b2|] eqn:P2; simpl.
  - destruct (truthy (strcmp (oqs_name k1) (oqs_name k2))) eqn:N.
    + exists 0. split; [reflexivity|]. split; [auto|].
      split; [discriminate|]. intros (_ & _ & E & _).
      apply strcmp_truthy in E. congruence.
    + apply strcmp_truthy in N.
      pose proof (key_ok_privkey _ _ W1 P1) as L1.
      pose proof (key_ok_privkey _ _ W2 P2) as L2.
      pose proof (same_registry_entry_privkeylen _ _ WR N) as L.
      destruct (CRYPTO_memcmp_spec b1 b2 (privkeylen k1)) as (r & -> & Hr);
        [lia | lia |].
      rewrite !take_ge in Hr by lia.
      rewrite and_then_done. eexists. split; [reflexivity|].
      split; [apply b2i_bool|].
      rewrite b2i_one, andb_true_iff, Z.eqb_eq, Hr. split.
      * intros [H ->]. repeat split; auto. congruence.
      * intros (H & _ & _ & E). split; [exact H|]. now apply E.
  - exists 0. split; [reflexivity|]. split; [auto|].
    split; [discriminate|]. intros (_ & E & _). discriminate E.
  - exists 0. split; [reflexivity|]. split; [auto|].
    split; [discriminate|]. intros (_ & E & _). discriminate E.
  - destruct (truthy (strcmp (oqs_name k1) (oqs_name k2))) eqn:N.
    + exists 0. split; [reflexivity|]. split; [auto|].
      split; [discriminate|]. intros (_ & _ & E & _).
      apply strcmp_truthy in E. congruence.
    + apply strcmp_truthy in N. rewrite and_then_done.
      eexists. split; [reflexivity|]. split; [apply b2i_bool|].
      rewrite b2i_one, andb_true_iff. split.
      * intros [H _]. repeat split; auto. discriminate.
      * intros [H _]. auto.
Qed.

Lemma match_public_key_fails (k1 k2 : OQSX_KEY) (ok : Z) :
  (pubkey k1 ≠ None ∧ pubkey k2 ≠ None) ∨ oqs_name k1 ≠ oqs_name k2 →
  match_public_key (Some k1) (Some k2) ok = Done 0.
Proof.
  intros H. unfold match_public_key. run.
  destruct (truthy (strcmp (oqs_name k1) (oqs_name k2))) eqn:N.
  - rewrite orb_true_r. reflexivity.
  - apply strcmp_truthy in N. destruct H as [[H1 H2] | H]; [|contradiction].
    destruct (pubkey k1), (pubkey k2); try contradiction. reflexivity.
Qed.

Lemma match_public_key_one (k1 k2 : OQSX_KEY) (ok : Z) :
  match_public_key (Some k1) (Some k2) ok = Done 1 → truthy ok = true.
Proof.
  unfold match_public_key. run.
  destruct (_ || _); [discriminate|]. apply and_then_one.
Qed.

(** C2: for two key objects and a selection that includes the public-key
    bit, [oqsx_match] answers 0 whenever both objects hold a public key, and
    whenever their algorithm names differ; in particular a key object that
    holds a public key does not match itself on the public key. *)
Theorem oqsx_match_public_key_fails (k1 k2 : OQSX_KEY) (selection : Z) :
  key_ok k1 = true → key_ok k2 = true → same_registry_entry k1 k2 = true →
  selected selection OSSL_KEYMGMT_SELECT_PUBLIC_KEY = true →
  (pubkey k1 ≠ None ∧ pubkey k2 ≠ None) ∨ oqs_name k1 ≠ oqs_name k2 →
  oqsx_match (Some k1) (Some k2) selection = Done 0
  ∧ (pubkey k1 ≠ None →
     oqsx_match (Some k1) (Some k1) OSSL_KEYMGMT_SELECT_PUBLIC_KEY = Done 0).
Proof.
  intros W1 W2 WR Hsel Hcase. split.
  - unfold oqsx_match. rewrite Hsel.
    assert (∃ ok1,
      (if selected selection OSSL_KEYMGMT_SELECT_DOMAIN_PARAMETERS
       then match_domain_parameters (Some k1) (Some k2) 1
       else mret 1) = Done ok1) as [ok1 ->].
    { destruct (selected selection OSSL_KEYMGMT_SELECT_DOMAIN_PARAMETERS).
      - destruct (match_domain_parameters_spec k1 k2 1) as (r & -> & _). eauto.
      - eexists. reflexivity. }
    run.
    assert (∃ ok2,
      (if selected selection OSSL_KEYMGMT_SELECT_PRIVATE_KEY
       then match_private_key (Some k1) (Some k2) ok1
       else Done ok1) = Done ok2) as [ok2 ->].
    { destruct (selected selection OSSL_KEYMGMT_SELECT_PRIVATE_KEY).
      - destruct (match_private_key_spec k1 k2 ok1 W1 W2 WR) as (r & -> & _).
        eauto.
      - eexists. reflexivity. }
    rewrite (match_public_key_fails k1 k2 ok2 Hcase). reflexivity.
  - intros Hpub. unfold oqsx_match. cbn [selected]. simpl. run.
    rewrite (match_public_key_fails k1 k1 1); [reflexivity|]. left. auto.
Qed.

Lemma oqsx_match_public_key_fails_witness :
  key_ok sample_key = true
  ∧ pubkey sample_key ≠ None
  ∧ oqsx_match (Some sample_key) (Some sample_key)
      OSSL_KEYMGMT_SELECT_PUBLIC_KEY = Done 0.
Proof.
  split; [reflexivity|]. split; [discriminate|].
  refine (proj1 (oqsx_match_public_key_fails sample_key sample_key
                   OSSL_KEYMGMT_SELECT_PUBLIC_KEY _ _ _ _ _));
    try reflexivity.
  left; split; discriminate.
Defined.

(** C4: for two key objects and a selection that includes the private-key
    bit, [oqsx_match] can answer 1 only if the private keys are both present
    or both absent, the algorithm names are equal and, when both keys are
    present, their bytes are equal; when the public-key bit is not selected
    as well, it answers 1 exactly then.  In particular every key object
    matches itself on the private key. *)
Theorem oqsx_match_private_key (k1 k2 : OQSX_KEY) (selection : Z) :
  key_ok k1 = true → key_ok k2 = true → same_registry_entry k1 k2 = true →
  selected selection OSSL_KEYMGMT_SELECT_PRIVATE_KEY = true →
  (oqsx_match (Some k1) (Some k2) selection = Done 1
   → private_parts_agree k1 k2)
  ∧ (selected selection OSSL_KEYMGMT_SELECT_PUBLIC_KEY = false →
     (oqsx_match (Some k1) (Some k2) selection = Done 1
      ↔ private_parts_agree k1 k2))
  ∧ (selected selection OSSL_KEYMGMT_SELECT_PUBLIC_KEY = false →
     oqsx_match (Some k1) (Some k2) selection = Done 0
     ∨ oqsx_match (Some k1) (Some k2) selection = Done 1)
  ∧ oqsx_match (Some k1) (Some k1) OSSL_KEYMGMT_SELECT_PRIVATE_KEY = Done 1.
Proof.
  intros W1 W2 WR Hsel.
  assert (∃ ok1 ok2,
    (if selected selection OSSL_KEYMGMT_SELECT_DOMAIN_PARAMETERS
     then match_domain_parameters (Some k1) (Some k2) 1
     else mret 1) = Done ok1
    ∧ match_private_key (Some k1) (Some k2) ok1 = Done ok2
    ∧ (ok2 = 0 ∨ ok2 = 1)
    ∧ (ok2 = 1 ↔ private_parts_agree k1 k2)) as (ok1 & ok2 & E1 & E2 & B & A).
  { destruct (match_private_key_spec k1 k2 1 W1 W2 WR) as (r & Er & Br & Ar).
    destruct (selected selection OSSL_KEYMGMT_SELECT_DOMAIN_PARAMETERS).
    - destruct (match_domain_parameters_spec k1 k2 1) as (d & Ed & Bd & Ad).
      destruct (match_private_key_spec k1 k2 d W1 W2 WR) as (r' & Er' & Br' & Ar').
      exists d, r'. split; [exact Ed|]. split; [exact Er'|].
      split; [exact Br'|]. split.
      + intros Hr. now apply Ar'.
      + intros Hr. apply Ar'. split; [|exact Hr].
        assert (d = 1) as -> by (apply Ad; split; [reflexivity | apply Hr]).
        reflexivity.
    - exists 1, r. split; [reflexivity|]. split; [exact Er|].
      split; [exact Br|]. split.
      + intros Hr. now apply Ar.
      + intros Hr. apply Ar. split; [reflexivity | exact Hr]. }
  assert (selected selection OSSL_KEYMGMT_SELECT_PUBLIC_KEY = false →
          oqsx_match (Some k1) (Some k2) selection = Done ok2) as U.
  { intros P. unfold oqsx_match. rewrite Hsel, P, E1. run. rewrite E2.
    reflexivity. }
  split; [|split; [|split]].
  - intros H. apply A.
    destruct (selected selection OSSL_KEYMGMT_SELECT_PUBLIC_KEY) eqn:P.
    + unfold oqsx_match in H. rewrite Hsel, P, E1 in H. run.
      rewrite E2 in H.
      destruct (match_public_key (Some k1) (Some k2) ok2) as [r|] eqn:Q;
        [|discriminate].
      injection H as ->. apply match_public_key_one in Q.
      destruct B as [-> | ->]; [discriminate Q | reflexivity].
    + rewrite (U eq_refl) in H. congruence.
  - intros P. rewrite (U P), <- A. split; congruence.
  - intros P. rewrite (U P). destruct B as [-> | ->]; auto.
  - destruct (match_private_key_spec k1 k1 1 W1 W1) as (r & Er & _ & Ar).
    { unfold same_registry_entry. rewrite String.eqb_refl, !Nat.eqb_refl.
      reflexivity. }
    unfold oqsx_match. simpl. run. rewrite Er.
    assert (r = 1) as ->; [|reflexivity].
    apply Ar. split; [reflexivity|]. repeat split; auto. congruence.
Qed.

Lemma oqsx_match_private_key_witness :
  (oqsx_match (Some sample_key) (Some sample_peer)
     OSSL_KEYMGMT_SELECT_PRIVATE_KEY = Done 1
   → private_parts_agree sample_key sample_peer)
  ∧ oqsx_match (Some sample_key) (Some sample_peer)
      OSSL_KEYMGMT_SELECT_PRIVATE_KEY = Done 0
  ∧ oqsx_match (Some sample_key) (Some sample_key)
      OSSL_KEYMGMT_SELECT_PRIVATE_KEY = Done 1.
Proof.
  destruct (oqsx_match_private_key sample_key sample_peer
              OSSL_KEYMGMT_SELECT_PRIVATE_KEY)
    as (H1 & _ & _ & H4);
    [reflexivity | reflexivity | reflexivity | reflexivity |].
  split; [exact H1|]. split; [reflexivity | exact H4].
Defined.

(** ** [oqsx_set_params] *)

Lemma OPENSSL_clear_free_spec (p : option bytes) (len : nat) (w w' : World) :
  OPENSSL_clear_free p len w = Done (tt, w') →
  ∀ b, p = Some b →
       replicate len Byte.x00 ++ drop len b ∈ released w'.
Proof.
  intros E b ->. unfold OPENSSL_clear_free, memcpy, release in E. run.
  destruct (_ && _); [|discriminate]. injection E as <-. simpl.
  rewrite take_replicate, Nat.min_id. apply elem_of_app. right.
  apply list_elem_of_singleton. reflexivity.
Qed.

Lemma set_property_query_keeps_keys (k k' : OQSX_KEY) (arg : option bytes)
    (r : Z) (w w' : World) :
  set_property_query k arg w = Done ((r, k'), w') →
  privkey k' = privkey k
  ∧ pubkey k' = pubkey k
  ∧ ∀ b, b ∈ released w → b ∈ released w'.
Proof.
  unfold set_property_query, OPENSSL_free, OPENSSL_strdup, allocate, release,
    ERR_raise. run.
  assert (∀ w0 : World,
            (match propq k with
             | Some b => λ w, Done (tt, mkWorld (allocs w) (errors w)
                                          (released w ++ [b]) (delivered w))
             | None => λ w, Done (tt, w)
             end) w0
            = Done (tt, mkWorld (allocs w0) (errors w0)
                          (released w0 ++ from_option (λ b, [b]) [] (propq k))
                          (delivered w0))) as F.
  { intros [a e rl d]. destruct (propq k); simpl; [reflexivity|].
    rewrite app_nil_r. reflexivity. }
  rewrite F. clear F.
  destruct arg as [str|].
  - destruct (c_string str) as [s|]; [|discriminate].
    destruct (allocs w) as [|[] rest]; simpl; intros E; injection E as <- <- <-;
      simpl; repeat split; intros b Hb; apply elem_of_app; auto.
  - intros E. injection E as <- <- <-. simpl.
    repeat split. intros b Hb. apply elem_of_app. auto.
Qed.

(** C7: when the encoded-public-key parameter has a byte length other than
    the public-key length the key object declares for its algorithm,
    [oqsx_set_params] answers 0 and the key object, its public and private
    key included, is as before the call. *)
Theorem oqsx_set_params_length_mismatch (key : OQSX_KEY)
    (params : option (list OSSL_PARAM)) (p : OSSL_PARAM) (w : World) :
  OSSL_PARAM_locate_const params OSSL_PKEY_PARAM_ENCODED_PUBLIC_KEY = Some p →
  data_size p ≠ pubkeylen key →
  oqsx_set_params (Some key) params w = Done ((0, Some key), w).
Proof.
  intros Hloc Hlen. unfold oqsx_set_params. rewrite Hloc. run.
  destruct (Nat.eqb_spec (data_size p) (pubkeylen key)); [contradiction|].
  reflexivity.
Qed.

Lemma oqsx_set_params_length_mismatch_witness :
  oqsx_set_params (Some sample_key)
    (Some [sample_encoded_pub [Byte.xc1; Byte.xc2; Byte.xc3]]) quiet
  = Done ((0, Some sample_key), quiet).
Proof.
  apply (oqsx_set_params_length_mismatch sample_key
           (Some [sample_encoded_pub [Byte.xc1; Byte.xc2; Byte.xc3]])
           (sample_encoded_pub [Byte.xc1; Byte.xc2; Byte.xc3]) quiet).
  - reflexivity.
  - simpl. lia.
Defined.

(** C3: when [oqsx_set_params] is given an encoded-public-key parameter and
    answers 1, the key object holds no private key afterwards, so that
    [oqsx_has] for the private key answers 0; the buffer of a private key
    held before the call was overwritten with zeros over its declared length
    before its release. *)
Theorem oqsx_set_params_erases_private_key (key : OQSX_KEY)
    (params : option (list OSSL_PARAM)) (p : OSSL_PARAM)
    (key' : option OQSX_KEY) (w w' : World) :
  OSSL_PARAM_locate_const params OSSL_PKEY_PARAM_ENCODED_PUBLIC_KEY = Some p →
  oqsx_set_params (Some key) params w = Done ((1, key'), w') →
  (∃ k', key' = Some k' ∧ privkey k' = None)
  ∧ oqsx_has key' OSSL_KEYMGMT_SELECT_PRIVATE_KEY = 0
  ∧ ∀ b, privkey key = Some b →
         replicate (privkeylen key) Byte.x00 ++ drop (privkeylen key) b
         ∈ released w'.
Proof.
  intros Hloc E.
  cut (∃ k', key' = Some k' ∧ privkey k' = None
             ∧ ∀ b, privkey key = Some b →
                    replicate (privkeylen key) Byte.x00
                    ++ drop (privkeylen key) b ∈ released w').
  { intros (k' & -> & Hp & Hz). split; [eauto|]. split; [|exact Hz].
    unfold oqsx_has. simpl. rewrite Hp. reflexivity. }
  unfold oqsx_set_params in E. rewrite Hloc in E. run.
  destruct (data_size p =? pubkeylen key)%nat; [|discriminate]. simpl in E.
  destruct (OSSL_PARAM_get_octet_string p (pubkey key) (pubkeylen key) w)
    as [[[got pub] w1]|]; [|discriminate].
  destruct (truthy got); [|discriminate]. simpl in E.
  destruct (OPENSSL_clear_free (privkey key) (privkeylen key) w1)
    as [[[] w2]|] eqn:C; [|discriminate].
  pose proof (OPENSSL_clear_free_spec _ _ _ _ C) as Z. simpl in E.
  destruct (OSSL_PARAM_locate_const params OSSL_PKEY_PARAM_PROPERTIES) as [q|].
  - destruct (data_type q =? OSSL_PARAM_UTF8_STRING); [|discriminate].
    simpl in E.
    destruct (set_property_query _ (data q) w2) as [[[set k'] w3]|] eqn:Q;
      [|discriminate].
    apply set_property_query_keeps_keys in Q as (Q1 & _ & Q3).
    destruct (truthy set); [|discriminate]. injection E as <- <-.
    exists k'. split; [reflexivity|]. split; [exact Q1|].
    intros b Hb. apply Q3, Z, Hb.
  - injection E as <- <-. eexists. split; [reflexivity|].
    split; [reflexivity|]. exact Z.
Qed.

Lemma oqsx_set_params_erases_private_key_witness :
  privkey sample_key ≠ None
  ∧ ∃ k', oqsx_set_params (Some sample_key)
            (Some [sample_encoded_pub [Byte.xc1; Byte.xc2]]) quiet
          = Done ((1, Some k'),
                  mkWorld [] [] [[Byte.x00; Byte.x00; Byte.x00]] [])
          ∧ pubkey k' = Some [Byte.xc1; Byte.xc2]
          ∧ privkey k' = None
          ∧ oqsx_has (Some k') OSSL_KEYMGMT_SELECT_PRIVATE_KEY = 0.
Proof.
  split; [discriminate|].
  eexists. split; [reflexivity|]. split; [reflexivity|].
  destruct (oqsx_set_params_erases_private_key sample_key
              (Some [sample_encoded_pub [Byte.xc1; Byte.xc2]])
              (sample_encoded_pub [Byte.xc1; Byte.xc2]) _ quiet _
              eq_refl eq_refl) as ((k' & Hk & Hp) & Hhas & _).
  injection Hk as <-. split; [exact Hp | exact Hhas].
Defined.

(** ** [oqsx_import] *)

(** C10: for a non-null key object, [oqsx_import] under a selection without
    any of the parameter bits (domain or other parameters), such as the
    key-pair selection, answers 0 whatever the parameter array holds;
    [oqsx_key_fromdata] is not called, and the key object and the world are
    as before the call. *)
Theorem oqsx_import_needs_parameter_selection
    (oqsx_key_fromdata :
       OQSX_KEY → option (list OSSL_PARAM) → Z → M (Z * OQSX_KEY))
    (key : OQSX_KEY) (selection : Z) (params : option (list OSSL_PARAM))
    (w : World) :
  Z.land selection OSSL_KEYMGMT_SELECT_ALL_PARAMETERS = 0 →
  oqsx_import oqsx_key_fromdata (Some key) selection params w
  = Done ((0, Some key), w).
Proof.
  intros H. unfold oqsx_import, selected, truthy. rewrite H. reflexivity.
Qed.

Lemma oqsx_import_needs_parameter_selection_witness :
  let params := Some [sample_pub [Byte.xc1; Byte.xc2]] in
  oqsx_import oqsx_key_fromdata_model (Some sample_fresh)
    OSSL_KEYMGMT_SELECT_KEYPAIR params quiet
  = Done ((0, Some sample_fresh), quiet)
  ∧ oqsx_import oqsx_key_fromdata_model (Some sample_fresh)
      (Z.lor OSSL_KEYMGMT_SELECT_KEYPAIR OSSL_KEYMGMT_SELECT_ALL_PARAMETERS)
      params quiet
    = Done ((1, Some (set_pubkey (Some [Byte.xc1; Byte.xc2]) sample_fresh)),
            quiet).
Proof.
  split.
  - apply (oqsx_import_needs_parameter_selection oqsx_key_fromdata_model
             sample_fresh OSSL_KEYMGMT_SELECT_KEYPAIR
             (Some [sample_pub [Byte.xc1; Byte.xc2]]) quiet).
    reflexivity.
  - reflexivity.
Defined.

(** ** [oqsx_export] *)

Lemma oqsx_export_outline (key : OQSX_KEY) (selection : Z)
    (param_cb : list OSSL_PARAM → Z) (w : World) :
  oqsx_export (Some key) selection param_cb w
  = (tmpl ← OSSL_PARAM_BLD_new;
     match tmpl with
     | None => ERR_raise ERR_USER_UNEXPECTED_NULL;; mret 0
     | Some tmpl =>
         params ← OSSL_PARAM_BLD_to_param tmpl;
         match params with
         | None => mret 0
         | Some params => invoke param_cb params
         end
     end) w.
Proof.
  unfold oqsx_export. cbn [OSSL_PARAM_locate].
  destruct (selected selection OSSL_KEYMGMT_SELECT_ALL_PARAMETERS
            || selected selection OSSL_KEYMGMT_SELECT_KEYPAIR); run;
    destruct (OSSL_PARAM_BLD_new w) as [[[tmpl|] w1]|]; reflexivity.
Qed.

(** C6: [oqsx_export] always returns.  With a null key handle, or when the
    allocation of the builder or of the parameter array fails, it answers 0
    and the callback is not invoked; in every other case the callback is
    invoked exactly once, with the finished parameter array, and its answer
    is the answer of [oqsx_export]. *)
Theorem oqsx_export_callback_all_or_nothing (keydata : option OQSX_KEY)
    (selection : Z) (param_cb : list OSSL_PARAM → Z) (w : World) :
  ∃ ret w',
    oqsx_export keydata selection param_cb w = Done (ret, w')
    ∧ ((ret = 0
        ∧ delivered w' = delivered w
        ∧ (keydata = None
           ∨ allocs w !! 0%nat = Some false
           ∨ allocs w !! 1%nat = Some false))
       ∨ (∃ params,
            ret = param_cb params
            ∧ delivered w' = delivered w ++ [params]
            ∧ keydata ≠ None
            ∧ allocs w !! 0%nat ≠ Some false
            ∧ allocs w !! 1%nat ≠ Some false)).
Proof.
  destruct keydata as [key|].
  - rewrite oqsx_export_outline.
    unfold OSSL_PARAM_BLD_new, OSSL_PARAM_BLD_to_param, allocate, ERR_raise,
      invoke. run.
    destruct w as [[|[] [|[] rest]] e rl d]; simpl;
      eexists _, _; (split; [reflexivity|]); simpl;
      first [ left; split; [reflexivity|]; split; [reflexivity|]; auto; fail
            | right; eexists; split; [reflexivity|]; split; [reflexivity|];
              repeat split; congruence ].
  - eexists _, _. split; [reflexivity|]. left. simpl. auto.
Qed.

Lemma oqsx_export_delivers_no_key (key : OQSX_KEY) (selection : Z)
    (param_cb : list OSSL_PARAM → Z) (w w' : World) (ret : Z) :
  oqsx_export (Some key) selection param_cb w = Done (ret, w') →
  delivered w' = delivered w ∨ delivered w' = delivered w ++ [[]].
Proof.
  rewrite oqsx_export_outline.
  unfold OSSL_PARAM_BLD_new, OSSL_PARAM_BLD_to_param, allocate, ERR_raise,
    invoke. run.
  destruct w as [[|[] [|[] rest]] e rl d]; simpl; intros E;
    injection E as <- <-; simpl; auto.
Qed.

(** C1: the round trip of [oqsx_export] and [oqsx_import] does not give the
    key back.  Whatever the key object and the selection, [oqsx_export]
    hands the callback an empty parameter array; for the sample key under the
    key-pair selection the callback receives [[]], and importing that array
    into a fresh object of the same algorithm answers 0 and leaves the
    object without public and private key. *)
Theorem oqsx_export_import_round_trip_fails :
  (∀ key selection param_cb w ret w',
     oqsx_export (Some key) selection param_cb w = Done (ret, w') →
     delivered w' = delivered w ∨ delivered w' = delivered w ++ [[]])
  ∧ oqsx_export (Some sample_key) OSSL_KEYMGMT_SELECT_KEYPAIR accept quiet
    = Done (1, mkWorld [] [] [] [[]])
  ∧ (∀ oqsx_key_fromdata,
       oqsx_import oqsx_key_fromdata (Some sample_fresh)
         OSSL_KEYMGMT_SELECT_KEYPAIR (Some []) quiet
       = Done ((0, Some sample_fresh), quiet))
  ∧ (∀ selection,
       oqsx_import oqsx_key_fromdata_model (Some sample_fresh) selection
         (Some []) quiet
       = Done ((0, Some sample_fresh), quiet))
  ∧ pubkey sample_fresh ≠ pubkey sample_key
  ∧ privkey sample_fresh ≠ privkey sample_key.
Proof.
  split; [intros; eapply oqsx_export_delivers_no_key; eassumption|].
  split; [reflexivity|]. split; [reflexivity|].
  split; [|split; discriminate].
  intros selection. unfold oqsx_import.
  destruct (selected selection OSSL_KEYMGMT_SELECT_ALL_PARAMETERS);
    reflexivity.
Qed.

(** ** [oqsx_load] *)

(** C8: when the declared size of the reference is the size of a key
    pointer, [oqsx_load] returns the key pointer held in the referenced cell
    and leaves null in that cell, every other cell being unchanged; for any
    other declared size it returns null and the memory is unchanged. *)
Theorem oqsx_load_detaches {K addr : Type} `{Countable addr}
    (sizeof_key_ptr : nat) (reference : addr) (reference_sz : nat)
    (mem : gmap addr (option K)) (cell : option K) :
  mem !! reference = Some cell →
  (reference_sz = sizeof_key_ptr →
   ∃ mem', oqsx_load sizeof_key_ptr reference reference_sz mem
           = Done (cell, mem')
           ∧ mem' !! reference = Some None
           ∧ ∀ a, a ≠ reference → mem' !! a = mem !! a)
  ∧ (reference_sz ≠ sizeof_key_ptr →
     oqsx_load sizeof_key_ptr reference reference_sz mem = Done (None, mem)).
Proof.
  intros Hcell. unfold oqsx_load. split.
  - intros ->. rewrite Nat.eqb_refl, Hcell. run.
    eexists. split; [reflexivity|]. split.
    + apply lookup_insert_eq.
    + intros a Ha. apply lookup_insert_ne. congruence.
  - intros Hsz. destruct (Nat.eqb_spec reference_sz sizeof_key_ptr);
      [contradiction | reflexivity].
Qed.

Lemma oqsx_load_detaches_witness :
  let mem : gmap N (option OQSX_KEY) := {[ 16%N := Some sample_key ]} in
  (∃ mem', oqsx_load 8 16%N 8 mem = Done (Some sample_key, mem')
           ∧ mem' !! 16%N = Some None)
  ∧ oqsx_load 8 16%N 4 mem = Done (None, mem).
Proof.
  intros mem.
  destruct (oqsx_load_detaches 8 16%N 8 mem (Some sample_key))
    as [H1 _]; [apply lookup_singleton_eq|].
  destruct (oqsx_load_detaches 8 16%N 4 mem (Some sample_key))
    as [_ H2]; [apply lookup_singleton_eq|].
  split.
  - destruct (H1 eq_refl) as (mem' & E & L & _). exists mem'. auto.
  - apply H2. lia.
Defined.

(** * Further properties *)

(** ** Selections *)

Lemma truthy_lor (x y : Z) : truthy (Z.lor x y) = truthy x || truthy y.
Proof.
  unfold truthy.
  destruct (Z.eqb_spec (Z.lor x y) 0) as [E|E].
  - apply Z.lor_eq_0_iff in E as [-> ->]. reflexivity.
  - destruct (Z.eqb_spec x 0) as [->|]; [|reflexivity].
    destruct (Z.eqb_spec y 0) as [->|]; [|reflexivity].
    exfalso. apply E. reflexivity.
Qed.

Lemma selected_lor (s1 s2 flag : Z) :
  selected (Z.lor s1 s2) flag = selected s1 flag || selected s2 flag.
Proof. unfold selected. rewrite Z.land_lor_distr_l. apply truthy_lor. Qed.

(** [oqsx_has] for the union of two selections holds exactly when it holds
    for each of them. *)
Theorem oqsx_has_union (keydata : option OQSX_KEY) (s1 s2 : Z) :
  oqsx_has keydata (Z.lor s1 s2) = 1
  ↔ oqsx_has keydata s1 = 1 ∧ oqsx_has keydata s2 = 1.
Proof.
  unfold oqsx_has. destruct keydata as [key|].
  - rewrite !selected_lor.
    destruct (selected s1 OSSL_KEYMGMT_SELECT_PUBLIC_KEY),
      (selected s2 OSSL_KEYMGMT_SELECT_PUBLIC_KEY),
      (selected s1 OSSL_KEYMGMT_SELECT_PRIVATE_KEY),
      (selected s2 OSSL_KEYMGMT_SELECT_PRIVATE_KEY),
      (pubkey key), (privkey key); simpl; intuition congruence.
  - intuition congruence.
Qed.

(** ** Loading twice *)

(** After [oqsx_load] took the key pointer out of a cell, a second
    [oqsx_load] of the same reference returns null and changes nothing: the
    pointer is handed out once. *)
Theorem oqsx_load_twice {K addr : Type} `{Countable addr}
    (sizeof_key_ptr : nat) (reference : addr) (mem : gmap addr (option K))
    (cell : option K) :
  mem !! reference = Some cell →
  ∃ mem',
    oqsx_load sizeof_key_ptr reference sizeof_key_ptr mem = Done (cell, mem')
    ∧ oqsx_load sizeof_key_ptr reference sizeof_key_ptr mem'
      = Done (None, mem').
Proof.
  intros Hcell. unfold oqsx_load. rewrite Nat.eqb_refl, Hcell. run.
  eexists. split; [reflexivity|].
  rewrite lookup_insert_eq. simpl. rewrite insert_insert_eq. reflexivity.
Qed.

Lemma oqsx_load_twice_witness :
  let mem : gmap N (option OQSX_KEY) := {[ 16%N := Some sample_key ]} in
  ∃ mem', oqsx_load 8 16%N 8 mem = Done (Some sample_key, mem')
          ∧ oqsx_load 8 16%N 8 mem' = Done (None, mem').
Proof.
  intros mem.
  apply (oqsx_load_twice 8 16%N mem (Some sample_key)).
  apply lookup_singleton_eq.
Defined.

(** ** More on [oqsx_match] *)

Lemma same_registry_entry_refl (k : OQSX_KEY) : same_registry_entry k k = true.
Proof.
  unfold same_registry_entry. rewrite String.eqb_refl, !Nat.eqb_refl.
  reflexivity.
Qed.

Lemma same_registry_entry_sym (k1 k2 : OQSX_KEY) :
  same_registry_entry k1 k2 = same_registry_entry k2 k1.
Proof.
  unfold same_registry_entry.
  rewrite (String.eqb_sym (oqs_name k1)), (Nat.eqb_sym (privkeylen k1)),
    (Nat.eqb_sym (pubkeylen k1)). reflexivity.
Qed.

Lemma private_parts_agree_sym (k1 k2 : OQSX_KEY) :
  private_parts_agree k1 k2 → private_parts_agree k2 k1.
Proof.
  intros (P & N & B). repeat split; auto.
  intros b1 b2 H1 H2. symmetry. now apply B.
Qed.

(** What [oqsx_match] answers when the public key is not selected. *)
Lemma oqsx_match_without_public_key (k1 k2 : OQSX_KEY) (selection : Z) :
  key_ok k1 = true → key_ok k2 = true → same_registry_entry k1 k2 = true →
  selected selection OSSL_KEYMGMT_SELECT_PUBLIC_KEY = false →
  ∃ r, oqsx_match (Some k1) (Some k2) selection = Done r
       ∧ (r = 0 ∨ r = 1)
       ∧ (r = 1
          ↔ (selected selection OSSL_KEYMGMT_SELECT_DOMAIN_PARAMETERS = true
             → oqs_name k1 = oqs_name k2)
            ∧ (selected selection OSSL_KEYMGMT_SELECT_PRIVATE_KEY = true
               → private_parts_agree k1 k2)).
Proof.
  intros W1 W2 WR P. unfold oqsx_match. rewrite P.
  destruct (selected selection OSSL_KEYMGMT_SELECT_DOMAIN_PARAMETERS).
  - destruct (match_domain_parameters_spec k1 k2 1) as (d & -> & Bd & Ad).
    run.
    destruct (selected selection OSSL_KEYMGMT_SELECT_PRIVATE_KEY).
    + destruct (match_private_key_spec k1 k2 d W1 W2 WR) as (r & -> & Br & Ar).
      exists r. split; [reflexivity|]. split; [exact Br|].
      rewrite Ar. split.
      * intros [Hd Hp]. split; intros _; [apply Hp | exact Hp].
      * intros [Hn Hp]. specialize (Hn eq_refl). specialize (Hp eq_refl).
        split; [|exact Hp].
        assert (d = 1) as -> by (apply Ad; auto). reflexivity.
    + exists d. split; [reflexivity|]. split; [exact Bd|].
      rewrite Ad. split.
      * intros [_ Hn]. split; [auto | discriminate].
      * intros [Hn _]. auto.
  - run.
    destruct (selected selection OSSL_KEYMGMT_SELECT_PRIVATE_KEY).
    + destruct (match_private_key_spec k1 k2 1 W1 W2 WR) as (r & -> & Br & Ar).
      exists r. split; [reflexivity|]. split; [exact Br|].
      rewrite Ar. split.
      * intros [_ Hp]. split; [discriminate | auto].
      * intros [_ Hp]. auto.
    + exists 1. split; [reflexivity|]. split; [auto|].
      split; [|reflexivity]. intros _. split; discriminate.
Qed.

(** When the public key is not selected, [oqsx_match] gives the same answer
    for the two orders of its key objects. *)
Theorem oqsx_match_symmetric_without_public_key (k1 k2 : OQSX_KEY)
    (selection : Z) :
  key_ok k1 = true → key_ok k2 = true → same_registry_entry k1 k2 = true →
  selected selection OSSL_KEYMGMT_SELECT_PUBLIC_KEY = false →
  oqsx_match (Some k1) (Some k2) selection
  = oqsx_match (Some k2) (Some k1) selection.
Proof.
  intros W1 W2 WR P.
  assert (same_registry_entry k2 k1 = true) as WR'
    by (rewrite same_registry_entry_sym; exact WR).
  destruct (oqsx_match_without_public_key k1 k2 selection W1 W2 WR P)
    as (r & -> & Br & Ar).
  destruct (oqsx_match_without_public_key k2 k1 selection W2 W1 WR' P)
    as (r' & -> & Br' & Ar').
  f_equal.
  assert (r = 1 ↔ r' = 1) as E.
  { rewrite Ar, Ar'. split; intros [Hn Hp]; split; intros S;
      first [ symmetry; now apply Hn
            | apply private_parts_agree_sym; now apply Hp ]. }
  destruct Br as [-> | ->], Br' as [-> | ->]; try reflexivity.
  - destruct E as [_ E]. specialize (E eq_refl). discriminate.
  - destruct E as [E _]. specialize (E eq_refl). discriminate.
Qed.

Lemma oqsx_match_symmetric_without_public_key_witness :
  oqsx_match (Some sample_key) (Some sample_peer)
    (Z.lor OSSL_KEYMGMT_SELECT_DOMAIN_PARAMETERS OSSL_KEYMGMT_SELECT_PRIVATE_KEY)
  = oqsx_match (Some sample_peer) (Some sample_key)
      (Z.lor OSSL_KEYMGMT_SELECT_DOMAIN_PARAMETERS
             OSSL_KEYMGMT_SELECT_PRIVATE_KEY).
Proof.
  apply (oqsx_match_symmetric_without_public_key sample_key sample_peer);
    reflexivity.
Defined.

(** A well-formed key object matches itself under a selection exactly when
    the selection does not ask for a public key that the object holds. *)
Theorem oqsx_match_self (k : OQSX_KEY) (selection : Z) :
  key_ok k = true →
  oqsx_match (Some k) (Some k) selection
  = Done (if selected selection OSSL_KEYMGMT_SELECT_PUBLIC_KEY
             && negb (is_null (pubkey k))
          then 0 else 1).
Proof.
  intros W.
  assert (∃ ok2,
    (ok1 ← (if selected selection OSSL_KEYMGMT_SELECT_DOMAIN_PARAMETERS
            then match_domain_parameters (Some k) (Some k) 1
            else mret 1);
     if selected selection OSSL_KEYMGMT_SELECT_PRIVATE_KEY
     then match_private_key (Some k) (Some k) ok1
     else mret ok1) = Done ok2 ∧ ok2 = 1) as (ok2 & E & ->).
  { assert (∃ ok1,
      (if selected selection OSSL_KEYMGMT_SELECT_DOMAIN_PARAMETERS
       then match_domain_parameters (Some k) (Some k) 1
       else mret 1) = Done ok1 ∧ ok1 = 1) as (ok1 & -> & ->).
    { destruct (selected selection OSSL_KEYMGMT_SELECT_DOMAIN_PARAMETERS).
      - destruct (match_domain_parameters_spec k k 1) as (d & -> & _ & Ad).
        exists d. split; [reflexivity|]. apply Ad. auto.
      - exists 1. auto. }
    run.
    destruct (selected selection OSSL_KEYMGMT_SELECT_PRIVATE_KEY).
    - destruct (match_private_key_spec k k 1 W W (same_registry_entry_refl k))
        as (r & -> & _ & Ar).
      exists r. split; [reflexivity|]. apply Ar. split; [reflexivity|].
      repeat split; auto. congruence.
    - exists 1. auto. }
  unfold oqsx_match. run.
  destruct (if selected selection OSSL_KEYMGMT_SELECT_DOMAIN_PARAMETERS
            then match_domain_parameters (Some k) (Some k) 1
            else Done 1) as [ok1|]; [|discriminate].
  rewrite E.
  destruct (selected selection OSSL_KEYMGMT_SELECT_PUBLIC_KEY); [|reflexivity].
  unfold match_public_key. run.
  assert (truthy (strcmp (oqs_name k) (oqs_name k)) = false) as ->
    by (now apply strcmp_truthy).
  destruct (pubkey k); reflexivity.
Qed.

Lemma oqsx_match_self_witness :
  oqsx_match (Some sample_key) (Some sample_key)
    (Z.lor OSSL_KEYMGMT_SELECT_KEYPAIR OSSL_KEYMGMT_SELECT_ALL_PARAMETERS)
  = Done 0
  ∧ oqsx_match (Some sample_fresh) (Some sample_fresh)
      (Z.lor OSSL_KEYMGMT_SELECT_KEYPAIR OSSL_KEYMGMT_SELECT_ALL_PARAMETERS)
    = Done 1.
Proof.
  split.
  - apply (oqsx_match_self sample_key). reflexivity.
  - apply (oqsx_match_self sample_fresh). reflexivity.
Defined.

(** On the public key alone, a key object without public key matches every
    key object of the same algorithm name, whether or not that one holds a
    public key. *)
Theorem oqsx_match_public_key_absent_first (k1 k2 : OQSX_KEY) :
  pubkey k1 = None → oqs_name k1 = oqs_name k2 →
  oqsx_match (Some k1) (Some k2) OSSL_KEYMGMT_SELECT_PUBLIC_KEY = Done 1.
Proof.
  intros P N. unfold oqsx_match. simpl. run. unfold match_public_key. run.
  rewrite P. simpl.
  assert (truthy (strcmp (oqs_name k1) (oqs_name k2)) = false) as ->
    by (now apply strcmp_truthy).
  reflexivity.
Qed.

Lemma oqsx_match_public_key_absent_first_witness :
  pubkey sample_key ≠ None
  ∧ oqsx_match (Some sample_fresh) (Some sample_key)
      OSSL_KEYMGMT_SELECT_PUBLIC_KEY = Done 1.
Proof.
  split; [discriminate|].
  apply (oqsx_match_public_key_absent_first sample_fresh sample_key);
    reflexivity.
Defined.

(** On the public key, when only the first of two key objects of one
    algorithm name holds a public key (of non-zero declared length),
    [oqsx_match] does not return: [CRYPTO_memcmp] is called on the null
    public key of the second.  This holds for every selection that includes
    the public key, provided the blocks before it return. *)
Theorem oqsx_match_public_key_absent_second (k1 k2 : OQSX_KEY) (b : bytes) :
  pubkey k1 = Some b → pubkey k2 = None → oqs_name k1 = oqs_name k2 →
  (0 < pubkeylen k1)%nat →
  oqsx_match (Some k1) (Some k2) OSSL_KEYMGMT_SELECT_PUBLIC_KEY = Fault
  ∧ ∀ ok, truthy ok = true → match_public_key (Some k1) (Some k2) ok = Fault.
Proof.
  intros P1 P2 N L.
  assert (∀ ok, truthy ok = true
                → match_public_key (Some k1) (Some k2) ok = Fault) as F.
  { intros ok Hok. unfold match_public_key. run. rewrite P1, P2. simpl.
    assert (truthy (strcmp (oqs_name k1) (oqs_name k2)) = false) as ->
      by (now apply strcmp_truthy).
    unfold and_then. rewrite Hok. unfold CRYPTO_memcmp. simpl.
    destruct (pubkeylen k1); [lia|]. simpl. destruct b; reflexivity. }
  split; [|exact F].
  unfold oqsx_match. simpl. run. rewrite (F 1 eq_refl). reflexivity.
Qed.

Lemma oqsx_match_public_key_absent_second_witness :
  oqsx_match (Some sample_key) (Some sample_fresh)
    OSSL_KEYMGMT_SELECT_PUBLIC_KEY = Fault.
Proof.
  refine (proj1 (oqsx_match_public_key_absent_second sample_key sample_fresh
                   [Byte.xa1; Byte.xa2] _ _ _ _));
    try reflexivity.
  simpl. lia.
Defined.

(** ** More on [oqsx_set_params] *)

Lemma set_property_query_result (k k' : OQSX_KEY) (arg : option bytes)
    (r : Z) (w w' : World) :
  set_property_query k arg w = Done ((r, k'), w') →
  ∃ v, k' = set_propq v k.
Proof.
  unfold set_property_query, OPENSSL_free, OPENSSL_strdup, allocate, release,
    ERR_raise. run.
  destruct (propq k), arg as [str|]; simpl;
    try (destruct (c_string str) as [s|]; [|discriminate]);
    try (destruct (allocs w) as [|[] rest]; simpl);
    intros E; injection E as <- <- <-; eexists; reflexivity.
Qed.

Lemma memcpy_done (dst src : bytes) (n : nat) (r : bytes) :
  memcpy dst src n = Done r →
  r = take n src ++ drop n dst ∧ (n ≤ length dst)%nat ∧ (n ≤ length src)%nat.
Proof.
  unfold memcpy.
  destruct (Nat.leb_spec n (length dst)), (Nat.leb_spec n (length src));
    simpl; intros E; try discriminate.
  injection E as <-. auto.
Qed.

Lemma memcpy_fits (dst src : bytes) (n : nat) :
  (n ≤ length dst)%nat → (n ≤ length src)%nat →
  memcpy dst src n = Done (take n src ++ drop n dst).
Proof.
  intros H1 H2. unfold memcpy.
  destruct (Nat.leb_spec n (length dst)), (Nat.leb_spec n (length src));
    simpl; try lia. reflexivity.
Qed.

Lemma OSSL_PARAM_get_octet_string_success (p : OSSL_PARAM)
    (val pub : option bytes) (max_len : nat) (got : Z) (d : bytes)
    (w w1 : World) :
  OSSL_PARAM_get_octet_string p val max_len w = Done ((got, pub), w1) →
  truthy got = true → data p = Some d →
  ∃ rest, pub = Some (take (data_size p) d ++ rest)
          ∧ (data_size p ≤ length d)%nat
          ∧ (∀ v, val = Some v → rest = drop (data_size p) v)
          ∧ (val = None → rest = []).
Proof.
  unfold OSSL_PARAM_get_octet_string. intros E T D. rewrite D in E.
  destruct (negb (data_type p =? OSSL_PARAM_OCTET_STRING)).
  { injection E as <- _ _. discriminate T. }
  destruct val as [v|].
  - destruct (max_len <? data_size p)%nat.
    { injection E as <- _ _. discriminate T. }
    run. destruct (memcpy v d (data_size p)) as [v'|] eqn:C; [|discriminate].
    apply memcpy_done in C as (-> & _ & L). injection E as _ <- _.
    eexists. split; [reflexivity|]. split; [exact L|].
    split; [|discriminate]. intros v0 [= <-]. reflexivity.
  - unfold allocate in E. run.
    destruct (allocs w) as [|[] rest]; simpl in E;
      try (injection E as <- _ _; discriminate T).
    + destruct (memcpy _ d (data_size p)) as [v'|] eqn:C; [|discriminate].
      apply memcpy_done in C as (-> & _ & L). injection E as _ <- _.
      rewrite drop_replicate, Nat.sub_diag. simpl.
      exists []. split; [reflexivity|]. split; [exact L|].
      split; [discriminate | reflexivity].
    + destruct (memcpy _ d (data_size p)) as [v'|] eqn:C; [|discriminate].
      apply memcpy_done in C as (-> & _ & L). injection E as _ <- _.
      rewrite drop_replicate, Nat.sub_diag. simpl.
      exists []. split; [reflexivity|]. split; [exact L|].
      split; [discriminate | reflexivity].
Qed.

(** What a successful [oqsx_set_params] with an encoded public key leaves:
    the octets of the parameter at the front of the public-key buffer, no
    private key, and name and declared lengths as before. *)
Lemma oqsx_set_params_public_key (key : OQSX_KEY)
    (params : option (list OSSL_PARAM)) (p : OSSL_PARAM) (d : bytes)
    (key' : option OQSX_KEY) (w w' : World) :
  OSSL_PARAM_locate_const params OSSL_PKEY_PARAM_ENCODED_PUBLIC_KEY = Some p →
  data p = Some d →
  oqsx_set_params (Some key) params w = Done ((1, key'), w') →
  ∃ rest v,
    key' = Some (set_propq v (set_privkey None
                   (set_pubkey (Some (take (pubkeylen key) d ++ rest)) key)))
    ∧ (pubkeylen key ≤ length d)%nat
    ∧ data_size p = pubkeylen key
    ∧ (∀ old, pubkey key = Some old → rest = drop (pubkeylen key) old)
    ∧ (pubkey key = None → rest = []).
Proof.
  intros Hloc D E. unfold oqsx_set_params in E. rewrite Hloc in E. run.
  destruct (Nat.eqb_spec (data_size p) (pubkeylen key)) as [S|];
    [|discriminate]. simpl in E.
  destruct (OSSL_PARAM_get_octet_string p (pubkey key) (pubkeylen key) w)
    as [[[got pub] w1]|] eqn:G; [|discriminate].
  destruct (truthy got) eqn:T; [|discriminate]. simpl in E.
  apply (OSSL_PARAM_get_octet_string_success _ _ _ _ _ d) in G
    as (rest & -> & L & R1 & R2); [|exact T | exact D].
  rewrite S in *.
  destruct (OPENSSL_clear_free (privkey key) (privkeylen key) w1)
    as [[[] w2]|]; [|discriminate]. simpl in E.
  destruct (OSSL_PARAM_locate_const params OSSL_PKEY_PARAM_PROPERTIES) as [q|].
  - destruct (data_type q =? OSSL_PARAM_UTF8_STRING); [|discriminate].
    simpl in E.
    destruct (set_property_query _ (data q) w2) as [[[set k'] w3]|] eqn:Q;
      [|discriminate].
    apply set_property_query_result in Q as [v ->].
    destruct (truthy set); [|discriminate]. injection E as <- <-.
    exists rest, v. auto.
  - injection E as <- <-. exists rest, (propq key). split; [|auto].
    destruct key; reflexivity.
Qed.

(** After a successful [oqsx_set_params] with an encoded public key whose
    buffer holds exactly the declared number of octets, a well-formed key
    object holds these octets as its public key and no private key; its
    algorithm name and declared lengths are unchanged and it is well-formed
    again. *)
Theorem oqsx_set_params_installs_public_key (key : OQSX_KEY)
    (params : option (list OSSL_PARAM)) (p : OSSL_PARAM) (d : bytes)
    (key' : option OQSX_KEY) (w w' : World) :
  key_ok key = true →
  OSSL_PARAM_locate_const params OSSL_PKEY_PARAM_ENCODED_PUBLIC_KEY = Some p →
  data p = Some d → length d = data_size p →
  oqsx_set_params (Some key) params w = Done ((1, key'), w') →
  ∃ k', key' = Some k'
        ∧ pubkey k' = Some d ∧ privkey k' = None
        ∧ oqs_name k' = oqs_name key
        ∧ pubkeylen k' = pubkeylen key ∧ privkeylen k' = privkeylen key
        ∧ key_ok k' = true.
Proof.
  intros W Hloc D L E.
  destruct (oqsx_set_params_public_key _ _ _ _ _ _ _ Hloc D E)
    as (rest & v & -> & Ld & S & R1 & R2).
  assert (rest = []) as ->.
  { destruct (pubkey key) as [old|] eqn:P; [|auto].
    rewrite (R1 old eq_refl). apply drop_ge.
    unfold key_ok in W. rewrite P in W.
    apply andb_true_iff in W as [_ W]. apply Nat.eqb_eq in W. lia. }
  rewrite take_ge, app_nil_r by lia.
  eexists. split; [reflexivity|]. simpl. repeat split.
  unfold key_ok. simpl. apply Nat.eqb_eq. lia.
Qed.

Lemma oqsx_set_params_installs_public_key_witness :
  ∃ k', oqsx_set_params (Some sample_key)
          (Some [sample_encoded_pub [Byte.xc1; Byte.xc2]]) quiet
        = Done ((1, Some k'),
                mkWorld [] [] [[Byte.x00; Byte.x00; Byte.x00]] [])
        ∧ pubkey k' = Some [Byte.xc1; Byte.xc2]
        ∧ key_ok k' = true.
Proof.
  eexists. split; [reflexivity|].
  destruct (oqsx_set_params_installs_public_key sample_key
              (Some [sample_encoded_pub [Byte.xc1; Byte.xc2]])
              (sample_encoded_pub [Byte.xc1; Byte.xc2])
              [Byte.xc1; Byte.xc2] _ quiet _
              eq_refl eq_refl eq_refl eq_refl eq_refl)
    as (k' & Hk & Hp & _ & _ & _ & _ & Hok).
  injection Hk as <-. split; [exact Hp | exact Hok].
Defined.

(** A failing [oqsx_set_params] can leave the key object changed: when the
    encoded public key is accepted and the property query that comes with
    it is not a UTF-8 string, the answer is 0, yet the public key has been
    replaced and the private key is gone. *)
Theorem oqsx_set_params_failure_after_replacement (key : OQSX_KEY)
    (params : option (list OSSL_PARAM)) (p q : OSSL_PARAM) (d old : bytes)
    (w : World) :
  key_ok key = true → pubkey key = Some old →
  OSSL_PARAM_locate_const params OSSL_PKEY_PARAM_ENCODED_PUBLIC_KEY = Some p →
  data_type p = OSSL_PARAM_OCTET_STRING →
  data p = Some d → data_size p = pubkeylen key → length d = pubkeylen key →
  OSSL_PARAM_locate_const params OSSL_PKEY_PARAM_PROPERTIES = Some q →
  data_type q ≠ OSSL_PARAM_UTF8_STRING →
  ∃ w', oqsx_set_params (Some key) params w
        = Done ((0, Some (set_privkey None (set_pubkey (Some d) key))), w').
Proof.
  intros W P Hp Tp D S L Hq Tq.
  unfold key_ok in W. rewrite P in W.
  apply andb_true_iff in W as [Wpriv Wpub]. apply Nat.eqb_eq in Wpub.
  unfold oqsx_set_params. rewrite Hp, Hq. run.
  rewrite S, Nat.eqb_refl. simpl.
  unfold OSSL_PARAM_get_octet_string. rewrite Tp, D, P, S. simpl. run.
  rewrite Nat.ltb_irrefl, memcpy_fits by lia. simpl.
  rewrite take_ge, drop_ge, app_nil_r by lia.
  destruct (Z.eqb_spec (data_type q) OSSL_PARAM_UTF8_STRING); [contradiction|].
  unfold OPENSSL_clear_free, release. run.
  destruct (privkey key) as [b|] eqn:Pr; simpl.
  - apply Nat.eqb_eq in Wpriv.
    rewrite memcpy_fits by (rewrite ?length_replicate; lia). simpl.
    eexists. reflexivity.
  - eexists. reflexivity.
Qed.

Lemma oqsx_set_params_failure_after_replacement_witness :
  ∃ w', oqsx_set_params (Some sample_key)
          (Some [sample_encoded_pub [Byte.xc1; Byte.xc2];
                 sample_properties OSSL_PARAM_OCTET_STRING]) quiet
        = Done ((0, Some (set_privkey None
                            (set_pubkey (Some [Byte.xc1; Byte.xc2]) sample_key))),
                w').
Proof.
  apply (oqsx_set_params_failure_after_replacement sample_key
           (Some [sample_encoded_pub [Byte.xc1; Byte.xc2];
                  sample_properties OSSL_PARAM_OCTET_STRING])
           (sample_encoded_pub [Byte.xc1; Byte.xc2])
           (sample_properties OSSL_PARAM_OCTET_STRING)
           [Byte.xc1; Byte.xc2] [Byte.xa1; Byte.xa2] quiet);
    try reflexivity.
  discriminate.
Defined.

(** [oqsx_set_params] with a UTF-8 property query and no encoded public key
    releases the property query held before and stores the string of the
    parameter; when the copy cannot be allocated it answers 0, raises the
    allocation error and the key object is left without property query.  The
    keys are not touched. *)
Theorem oqsx_set_params_property_query (key : OQSX_KEY)
    (params : option (list OSSL_PARAM)) (q : OSSL_PARAM) (buf s : bytes)
    (w : World) :
  OSSL_PARAM_locate_const params OSSL_PKEY_PARAM_ENCODED_PUBLIC_KEY = None →
  OSSL_PARAM_locate_const params OSSL_PKEY_PARAM_PROPERTIES = Some q →
  data_type q = OSSL_PARAM_UTF8_STRING →
  data q = Some buf → c_string buf = Done s →
  ∃ w',
    oqsx_set_params (Some key) params w
    = Done ((if next_allocation w then 1 else 0,
             Some (set_propq (if next_allocation w then Some s else None) key)),
            w')
    ∧ released w' = released w ++ from_option (λ old, [old]) [] (propq key)
    ∧ errors w'
      = errors w ++ (if next_allocation w then [] else [ERR_PROV_MALLOC_FAILURE]).
Proof.
  intros He Hq T D C. unfold oqsx_set_params. rewrite He, Hq. run.
  rewrite T. simpl.
  unfold set_property_query, OPENSSL_free, OPENSSL_strdup, allocate, release,
    ERR_raise, next_allocation. run. rewrite D, C.
  destruct w as [al e rl dl]. simpl.
  destruct (propq key) as [old|]; simpl;
    destruct al as [|[] al]; simpl; eexists;
    (split; [reflexivity|]); simpl; rewrite ?app_nil_r; auto.
Qed.

Lemma oqsx_set_params_property_query_witness :
  oqsx_set_params (Some sample_key)
    (Some [sample_properties OSSL_PARAM_UTF8_STRING]) quiet
  = Done ((1, Some (set_propq (Some [Byte.x61; Byte.x3d; Byte.x62]) sample_key)),
          quiet).
Proof.
  destruct (oqsx_set_params_property_query sample_key
              (Some [sample_properties OSSL_PARAM_UTF8_STRING])
              (sample_properties OSSL_PARAM_UTF8_STRING)
              sample_query [Byte.x61; Byte.x3d; Byte.x62] quiet
              eq_refl eq_refl eq_refl eq_refl eq_refl) as (w' & E & _).
  reflexivity.
Defined.

(** ** More on [oqsx_export] *)


(** ** [oqsx_get_params] *)

Lemma locate_from_insert (l : list OSSL_PARAM) :
  ∀ (key : string) (i n : nat) (q' : OSSL_PARAM),
    (∀ q, l !! n = Some q → param_key q' = param_key q) →
    locate_from (<[n := q']> l) key i = locate_from l key i.
Proof.
  induction l as [|q0 l IH]; intros key i n q' K; [reflexivity|].
  destruct n as [|n]; simpl.
  - rewrite (K q0 eq_refl). reflexivity.
  - rewrite (IH key (S i) n q'); [reflexivity|]. intros q Hq. now apply K.
Qed.

Lemma locate_from_lookup (l : list OSSL_PARAM) :
  ∀ (key : string) (i j : nat),
    locate_from l key i = Some j → (i ≤ j)%nat ∧ is_Some (l !! (j - i)%nat).
Proof.
  induction l as [|q0 l IH]; intros key i j E; [discriminate|].
  simpl in E. destruct (strcmp key (param_key q0) =? 0).
  - injection E as <-. rewrite Nat.sub_diag. split; [lia | eauto].
  - apply IH in E as [L S]. split; [lia|].
    replace (j - i)%nat with (Datatypes.S (j - Datatypes.S i)) by lia.
    exact S.
Qed.

Lemma OSSL_PARAM_locate_lookup (params : option (list OSSL_PARAM))
    (key : string) (i : nat) :
  OSSL_PARAM_locate params key = Some i →
  ∃ l q, params = Some l ∧ l !! i = Some q.
Proof.
  destruct params as [l|]; [|discriminate]. simpl. intros E.
  apply locate_from_lookup in E as [_ [q Hq]].
  rewrite Nat.sub_0_r in Hq. eauto.
Qed.

(** What [OSSL_PARAM_set_octet_string] does to the element it is given. *)
Lemma OSSL_PARAM_set_octet_string_element (l : list OSSL_PARAM) (i : nat)
    (q : OSSL_PARAM) (val : option bytes) (len : nat) :
  l !! i = Some q →
  OSSL_PARAM_set_octet_string (Some l) i val len
  = match val, data q with
    | None, _ => Done (0, Some (<[i := answered q (data q) 0]> l))
    | Some v, None => Done (1, Some (<[i := answered q None len]> l))
    | Some v, Some buf =>
        if negb (data_type q =? OSSL_PARAM_OCTET_STRING)
           || (data_size q <? len)%nat
        then Done (0, Some (<[i := answered q (Some buf) len]> l))
        else
          match memcpy buf v len with
          | Done d' => Done (1, Some (<[i := answered q (Some d') len]> l))
          | Fault => Fault
          end
    end.
Proof.
  intros Hq. unfold OSSL_PARAM_set_octet_string, answered. run. rewrite Hq.
  simpl. destruct val as [v|]; [|reflexivity]. simpl.
  destruct (data q) as [buf|]; [|reflexivity]. reflexivity.
Qed.

Lemma OSSL_PARAM_set_octet_string_keeps_names
    (params params' : option (list OSSL_PARAM)) (i : nat)
    (val : option bytes) (len : nat) (r : Z) :
  OSSL_PARAM_set_octet_string params i val len = Done (r, params') →
  ∀ name, OSSL_PARAM_locate params' name = OSSL_PARAM_locate params name.
Proof.
  intros E name. destruct params as [l|]; [|discriminate].
  destruct (l !! i) as [q|] eqn:Hq;
    [|unfold OSSL_PARAM_set_octet_string in E; run; rewrite Hq in E;
      discriminate].
  rewrite (OSSL_PARAM_set_octet_string_element l i q val len Hq) in E.
  assert (∀ d n, OSSL_PARAM_locate (Some (<[i := answered q d n]> l)) name
                 = OSSL_PARAM_locate (Some l) name) as F.
  { intros d n. simpl. apply locate_from_insert.
    intros q0 H0. rewrite Hq in H0. injection H0 as <-. reflexivity. }
  destruct val as [v|]; [|injection E as _ <-; apply F].
  destruct (data q) as [buf|]; [|injection E as _ <-; apply F].
  destruct (_ || _); [injection E as _ <-; apply F|].
  destruct (memcpy buf v len); [|discriminate].
  injection E as _ <-. apply F.
Qed.

Lemma is_null_true {A : Type} (p : option A) : is_null p = true → p = None.
Proof. destruct p; [discriminate | reflexivity]. Qed.

(** A request for one key part alone comes down to one call of
    [OSSL_PARAM_set_octet_string]. *)
Lemma oqsx_get_params_single
    (parambits maxsize : option OQSX_KEY → outcome Z)
    (set_int : option (list OSSL_PARAM) → nat → Z
               → outcome (Z * option (list OSSL_PARAM)))
    (key : OQSX_KEY) (params : option (list OSSL_PARAM)) (name : string)
    (i : nat) (val : option bytes) (len : nat) :
  key_part name key = Some (val, len) →
  asks_only params name i = true →
  oqsx_get_params parambits maxsize set_int (Some key) params
  = match OSSL_PARAM_set_octet_string params i val len with
    | Done (set, params') => Done (b2i (truthy set), params')
    | Fault => Fault
    end.
Proof.
  unfold key_part, asks_only. intros K A.
  apply andb_true_iff in A as [A1 A2]. apply bool_decide_eq_true in A1.
  destruct (String.eqb_spec name OSSL_PKEY_PARAM_ENCODED_PUBLIC_KEY) as [->|N1];
    [|destruct (String.eqb_spec name OSSL_PKEY_PARAM_PUB_KEY) as [->|N2];
      [|destruct (String.eqb_spec name OSSL_PKEY_PARAM_PRIV_KEY) as [->|N3];
        [|discriminate]]];
    simpl in K; injection K as <- <-;
    cbn [forallb gettable_names] in A2;
    repeat match type of A2 with
           | (_ && _) = true => apply andb_true_iff in A2 as [? A2]
           end;
    repeat match goal with
           | H : (String.eqb _ _ || is_null _) = true |- _ =>
               first [ apply is_null_true in H | clear H ]
           end;
    unfold oqsx_get_params, get_int, get_octets; run;
    repeat match goal with
           | H : OSSL_PARAM_locate params _ = None |- _ => rewrite H; clear H
           end;
    simpl; rewrite ?A1; simpl.
  - destruct (OSSL_PARAM_set_octet_string params i (pubkey key) (pubkeylen key))
      as [[set params']|] eqn:S; [|reflexivity].
    pose proof (OSSL_PARAM_set_octet_string_keeps_names _ _ _ _ _ _ S) as F.
    destruct (truthy set); simpl; [|reflexivity].
    repeat (rewrite ?F;
            repeat match goal with
                   | H : OSSL_PARAM_locate params _ = None |- _ => rewrite H
                   end;
            simpl).
    reflexivity.
  - destruct (OSSL_PARAM_set_octet_string params i (pubkey key) (pubkeylen key))
      as [[set params']|] eqn:S; [|reflexivity].
    pose proof (OSSL_PARAM_set_octet_string_keeps_names _ _ _ _ _ _ S) as F.
    destruct (truthy set); simpl; [|reflexivity].
    repeat (rewrite ?F;
            repeat match goal with
                   | H : OSSL_PARAM_locate params _ = None |- _ => rewrite H
                   end;
            simpl).
    reflexivity.
  - destruct (OSSL_PARAM_set_octet_string params i (privkey key)
                (privkeylen key)) as [[set params']|]; [|reflexivity].
    destruct (truthy set); reflexivity.
Qed.

Section GetParamsProperties.

Variable parambits maxsize : option OQSX_KEY → outcome Z.
Variable set_int :
  option (list OSSL_PARAM) → nat → Z → outcome (Z * option (list OSSL_PARAM)).

(** A request for a key part that the key object does not hold (encoded
    public key, public key or private key, asked for alone) makes
    [oqsx_get_params] answer 0; the requested element reports size 0 and its
    buffer is untouched. *)
Theorem oqsx_get_params_absent_key_part (key : OQSX_KEY)
    (params : option (list OSSL_PARAM)) (name : string) (i len : nat) :
  key_part name key = Some (None, len) →
  asks_only params name i = true →
  ∃ l q, params = Some l ∧ l !! i = Some q
         ∧ oqsx_get_params parambits maxsize set_int (Some key) params
           = Done (0, Some (<[i := answered q (data q) 0]> l)).
Proof.
  intros K A. rewrite (oqsx_get_params_single _ _ _ _ _ _ _ _ _ K A).
  apply andb_true_iff in A as [A _]. apply bool_decide_eq_true in A.
  apply OSSL_PARAM_locate_lookup in A as (l & q & -> & Hq).
  exists l, q. split; [reflexivity|]. split; [exact Hq|].
  rewrite (OSSL_PARAM_set_octet_string_element l i q None len Hq).
  reflexivity.
Qed.

(** A request for a key part alone, with an octet-string buffer that is
    large enough, makes [oqsx_get_params] answer 1: the declared number of
    key bytes is at the front of the buffer and is the reported size. *)
Theorem oqsx_get_params_delivers_key_part (key : OQSX_KEY)
    (l : list OSSL_PARAM) (name : string) (i len : nat) (q : OSSL_PARAM)
    (b buf : bytes) :
  key_part name key = Some (Some b, len) → (len ≤ length b)%nat →
  asks_only (Some l) name i = true → l !! i = Some q →
  data q = Some buf → data_type q = OSSL_PARAM_OCTET_STRING →
  (len ≤ data_size q)%nat → (len ≤ length buf)%nat →
  oqsx_get_params parambits maxsize set_int (Some key) (Some l)
  = Done (1, Some (<[i := answered q (Some (take len b ++ drop len buf)) len]> l)).
Proof.
  intros K Lb A Hq D T Ls Lbuf.
  rewrite (oqsx_get_params_single _ _ _ _ _ _ _ _ _ K A).
  rewrite (OSSL_PARAM_set_octet_string_element l i q (Some b) len Hq).
  rewrite D, T. simpl.
  destruct (Nat.ltb_spec (data_size q) len); [lia|].
  rewrite memcpy_fits by lia. reflexivity.
Qed.

(** A request for a key part alone, without a buffer, makes
    [oqsx_get_params] answer 1 and report the declared length of the key
    part. *)
Theorem oqsx_get_params_size_query (key : OQSX_KEY) (l : list OSSL_PARAM)
    (name : string) (i len : nat) (q : OSSL_PARAM) (b : bytes) :
  key_part name key = Some (Some b, len) →
  asks_only (Some l) name i = true → l !! i = Some q → data q = None →
  oqsx_get_params parambits maxsize set_int (Some key) (Some l)
  = Done (1, Some (<[i := answered q None len]> l)).
Proof.
  intros K A Hq D.
  rewrite (oqsx_get_params_single _ _ _ _ _ _ _ _ _ K A).
  rewrite (OSSL_PARAM_set_octet_string_element l i q (Some b) len Hq), D.
  reflexivity.
Qed.

(** A request for a key part alone, with a buffer that is declared smaller
    than the key part or is not an octet string, makes [oqsx_get_params]
    answer 0: the buffer is untouched and the needed size is reported. *)
Theorem oqsx_get_params_small_buffer (key : OQSX_KEY) (l : list OSSL_PARAM)
    (name : string) (i len : nat) (q : OSSL_PARAM) (b buf : bytes) :
  key_part name key = Some (Some b, len) →
  asks_only (Some l) name i = true → l !! i = Some q → data q = Some buf →
  data_type q ≠ OSSL_PARAM_OCTET_STRING ∨ (data_size q < len)%nat →
  oqsx_get_params parambits maxsize set_int (Some key) (Some l)
  = Done (0, Some (<[i := answered q (Some buf) len]> l)).
Proof.
  intros K A Hq D C.
  rewrite (oqsx_get_params_single _ _ _ _ _ _ _ _ _ K A).
  rewrite (OSSL_PARAM_set_octet_string_element l i q (Some b) len Hq), D.
  assert (negb (data_type q =? OSSL_PARAM_OCTET_STRING)
          || (data_size q <? len)%nat = true) as ->; [|reflexivity].
  apply orb_true_iff. destruct C as [C|C].
  - left. destruct (Z.eqb_spec (data_type q) OSSL_PARAM_OCTET_STRING);
      [contradiction | reflexivity].
  - right. now apply Nat.ltb_lt.
Qed.

(** The encoded public key that a successful [oqsx_set_params] stored is
    what [oqsx_get_params] hands out for it afterwards. *)
Theorem oqsx_set_get_public_key_round_trip (key k' : OQSX_KEY)
    (sparams : option (list OSSL_PARAM)) (p : OSSL_PARAM) (d : bytes)
    (w w' : World) (l : list OSSL_PARAM) (i : nat) (q : OSSL_PARAM)
    (buf : bytes) :
  OSSL_PARAM_locate_const sparams OSSL_PKEY_PARAM_ENCODED_PUBLIC_KEY = Some p →
  data p = Some d →
  oqsx_set_params (Some key) sparams w = Done ((1, Some k'), w') →
  asks_only (Some l) OSSL_PKEY_PARAM_ENCODED_PUBLIC_KEY i = true →
  l !! i = Some q →
  data q = Some buf → data_type q = OSSL_PARAM_OCTET_STRING →
  (pubkeylen key ≤ data_size q)%nat → (pubkeylen key ≤ length buf)%nat →
  oqsx_get_params parambits maxsize set_int (Some k') (Some l)
  = Done (1, Some (<[i := answered q
                           (Some (take (pubkeylen key) d
                                  ++ drop (pubkeylen key) buf))
                           (pubkeylen key)]> l)).
Proof.
  intros Hloc D E A Hq Dq T Ls Lbuf.
  destruct (oqsx_set_params_public_key _ _ _ _ _ _ _ Hloc D E)
    as (rest & v & [= ->] & Ld & _ & _ & _).
  assert (key_part OSSL_PKEY_PARAM_ENCODED_PUBLIC_KEY
            (set_propq v (set_privkey None
               (set_pubkey (Some (take (pubkeylen key) d ++ rest)) key)))
          = Some (Some (take (pubkeylen key) d ++ rest), pubkeylen key)) as K
    by reflexivity.
  rewrite (oqsx_get_params_single _ _ _ _ _ _ _ _ _ K A).
  rewrite (OSSL_PARAM_set_octet_string_element l i q _ _ Hq).
  rewrite Dq, T. simpl.
  destruct (Nat.ltb_spec (data_size q) (pubkeylen key)); [lia|].
  rewrite memcpy_fits by (rewrite ?length_app, ?length_take; lia).
  rewrite take_app_length' by (rewrite length_take; lia).
  reflexivity.
Qed.

End GetParamsProperties.

Lemma oqsx_get_params_absent_key_part_witness :
  oqsx_get_params sample_parambits sample_parambits sample_set_int
    (Some sample_fresh)
    (Some [sample_request OSSL_PKEY_PARAM_PRIV_KEY [Byte.xff; Byte.xff; Byte.xff]])
  = Done (0, Some [sample_request OSSL_PKEY_PARAM_PRIV_KEY
                     [Byte.xff; Byte.xff; Byte.xff]]).
Proof.
  destruct (oqsx_get_params_absent_key_part sample_parambits sample_parambits
              sample_set_int sample_fresh
              (Some [sample_request OSSL_PKEY_PARAM_PRIV_KEY
                       [Byte.xff; Byte.xff; Byte.xff]])
              OSSL_PKEY_PARAM_PRIV_KEY 0 3 eq_refl eq_refl)
    as (l & q & _ & _ & _).
  reflexivity.
Defined.

Lemma oqsx_get_params_delivers_key_part_witness :
  oqsx_get_params sample_parambits sample_parambits sample_set_int
    (Some sample_key)
    (Some [sample_request OSSL_PKEY_PARAM_PRIV_KEY
             [Byte.xff; Byte.xff; Byte.xff; Byte.xff]])
  = Done (1, Some [mkOSSL_PARAM OSSL_PKEY_PARAM_PRIV_KEY
                     OSSL_PARAM_OCTET_STRING
                     (Some [Byte.x11; Byte.x12; Byte.x13; Byte.xff]) 4 3]).
Proof.
  apply (oqsx_get_params_delivers_key_part sample_parambits sample_parambits
           sample_set_int sample_key
           [sample_request OSSL_PKEY_PARAM_PRIV_KEY
              [Byte.xff; Byte.xff; Byte.xff; Byte.xff]]
           OSSL_PKEY_PARAM_PRIV_KEY 0 3
           (sample_request OSSL_PKEY_PARAM_PRIV_KEY
              [Byte.xff; Byte.xff; Byte.xff; Byte.xff])
           [Byte.x11; Byte.x12; Byte.x13]
           [Byte.xff; Byte.xff; Byte.xff; Byte.xff]);
    try reflexivity; simpl; lia.
Defined.

Lemma oqsx_get_params_size_query_witness :
  oqsx_get_params sample_parambits sample_parambits sample_set_int
    (Some sample_key)
    (Some [sample_size_request OSSL_PKEY_PARAM_PUB_KEY])
  = Done (1, Some [mkOSSL_PARAM OSSL_PKEY_PARAM_PUB_KEY
                     OSSL_PARAM_OCTET_STRING None 0 2]).
Proof.
  apply (oqsx_get_params_size_query sample_parambits sample_parambits
           sample_set_int sample_key
           [sample_size_request OSSL_PKEY_PARAM_PUB_KEY]
           OSSL_PKEY_PARAM_PUB_KEY 0 2
           (sample_size_request OSSL_PKEY_PARAM_PUB_KEY)
           [Byte.xa1; Byte.xa2]);
    reflexivity.
Defined.

Lemma oqsx_get_params_small_buffer_witness :
  oqsx_get_params sample_parambits sample_parambits sample_set_int
    (Some sample_key)
    (Some [sample_request OSSL_PKEY_PARAM_PRIV_KEY [Byte.xff; Byte.xff]])
  = Done (0, Some [mkOSSL_PARAM OSSL_PKEY_PARAM_PRIV_KEY
                     OSSL_PARAM_OCTET_STRING (Some [Byte.xff; Byte.xff]) 2 3]).
Proof.
  apply (oqsx_get_params_small_buffer sample_parambits sample_parambits
           sample_set_int sample_key
           [sample_request OSSL_PKEY_PARAM_PRIV_KEY [Byte.xff; Byte.xff]]
           OSSL_PKEY_PARAM_PRIV_KEY 0 3
           (sample_request OSSL_PKEY_PARAM_PRIV_KEY [Byte.xff; Byte.xff])
           [Byte.x11; Byte.x12; Byte.x13] [Byte.xff; Byte.xff]);
    try reflexivity.
  right. simpl. lia.
Defined.

Lemma oqsx_set_get_public_key_round_trip_witness :
  ∃ k' w',
    oqsx_set_params (Some sample_key)
      (Some [sample_encoded_pub [Byte.xc1; Byte.xc2]]) quiet
    = Done ((1, Some k'), w')
    ∧ oqsx_get_params sample_parambits sample_parambits sample_set_int
        (Some k')
        (Some [sample_request OSSL_PKEY_PARAM_ENCODED_PUBLIC_KEY
                 [Byte.xff; Byte.xff]])
      = Done (1, Some [mkOSSL_PARAM OSSL_PKEY_PARAM_ENCODED_PUBLIC_KEY
                         OSSL_PARAM_OCTET_STRING
                         (Some [Byte.xc1; Byte.xc2]) 2 2]).
Proof.
  eexists _, _. split; [reflexivity|].
  eapply (oqsx_set_get_public_key_round_trip sample_parambits sample_parambits
           sample_set_int sample_key _
           (Some [sample_encoded_pub [Byte.xc1; Byte.xc2]])
           (sample_encoded_pub [Byte.xc1; Byte.xc2]) [Byte.xc1; Byte.xc2]
           quiet _
           [sample_request OSSL_PKEY_PARAM_ENCODED_PUBLIC_KEY
              [Byte.xff; Byte.xff]]
           0
           (sample_request OSSL_PKEY_PARAM_ENCODED_PUBLIC_KEY
              [Byte.xff; Byte.xff])
           [Byte.xff; Byte.xff]);
    try reflexivity; simpl; lia.
Defined.

(** ** The generation context *)

Section GenerationProperties.

Context {OSSL_LIB_CTX PROVCTX : Type}.
Variable PROV_OQS_LIBCTX_OF : PROVCTX → OSSL_LIB_CTX.
Variable oqsx_key_new :
  OSSL_LIB_CTX → option string → option string → Z → option bytes →
  M (option OQSX_KEY).
Variable oqsx_key_gen : OQSX_KEY → M (Z * OQSX_KEY).

Lemma OPENSSL_strdup_ptr_world (str dup : option bytes) (w w' : World) :
  OPENSSL_strdup_ptr str w = Done (dup, w') →
  released w' = released w ∧ errors w' = errors w
  ∧ ∀ buf s, str = Some buf → c_string buf = Done s →
             dup = (if next_allocation w then Some s else None).
Proof.
  unfold OPENSSL_strdup_ptr, OPENSSL_strdup, allocate, next_allocation. run.
  destruct str as [buf|].
  - destruct (c_string buf) as [s|] eqn:C; [|discriminate].
    destruct (allocs w) as [|[] rest]; simpl; intros E; injection E as <- <-;
      simpl; repeat split; intros buf0 s0 [= <-] C0; rewrite C in C0;
      injection C0 as <-; reflexivity.
  - intros E. injection E as <- <-. repeat split. discriminate.
Qed.

(** The steps of a call of [oqsx_gen_set_params] that returns. *)
Lemma oqsx_gen_set_params_inv
    (gctx : @oqsx_gen_ctx OSSL_LIB_CTX) (params : option (list OSSL_PARAM))
    (r : Z) (genctx' : option oqsx_gen_ctx) (w w' : World) :
  oqsx_gen_set_params (Some gctx) params w = Done ((r, genctx'), w') →
  ∃ tls w1,
    released w1 = released w
    ∧ match OSSL_PARAM_locate_const params OSSL_KDF_PARAM_PROPERTIES with
      | None =>
          r = 1 ∧ w' = w1
          ∧ genctx' = Some (mkoqsx_gen_ctx (gctx_libctx gctx) (gctx_propq gctx)
                              (gctx_oqs_name gctx) tls (gctx_primitive gctx)
                              (gctx_selection gctx))
      | Some p =>
          if negb (data_type p =? OSSL_PARAM_UTF8_STRING)
          then r = 0 ∧ w' = w1
               ∧ genctx' = Some (mkoqsx_gen_ctx (gctx_libctx gctx)
                                   (gctx_propq gctx) (gctx_oqs_name gctx) tls
                                   (gctx_primitive gctx) (gctx_selection gctx))
          else
            ∃ dup w2,
              OPENSSL_free (gctx_propq gctx) w1 = Done (tt, w2)
              ∧ OPENSSL_strdup_ptr (data p) w2 = Done (dup, w')
              ∧ r = (if is_null dup then 0 else 1)
              ∧ genctx' = Some (mkoqsx_gen_ctx (gctx_libctx gctx) dup
                                  (gctx_oqs_name gctx) tls
                                  (gctx_primitive gctx) (gctx_selection gctx))
      end.
Proof.
  unfold oqsx_gen_set_params. run.
  assert (∀ (tls : option bytes) (w1 : World),
    (let g1 := mkoqsx_gen_ctx (gctx_libctx gctx) (gctx_propq gctx)
                 (gctx_oqs_name gctx) tls (gctx_primitive gctx)
                 (gctx_selection gctx) in
     match OSSL_PARAM_locate_const params OSSL_KDF_PARAM_PROPERTIES with
     | Some p =>
         if negb (data_type p =? OSSL_PARAM_UTF8_STRING)
         then λ w, Done ((0, Some g1), w)
         else
           λ w, match OPENSSL_free (gctx_propq g1) w with
                | Done (_, w2) =>
                    match OPENSSL_strdup_ptr (data p) w2 with
                    | Done (dup, w3) =>
                        (if is_null dup
                         then λ w, Done ((0, Some (mkoqsx_gen_ctx
                                 (gctx_libctx g1) dup (gctx_oqs_name g1)
                                 (gctx_tls_name g1) (gctx_primitive g1)
                                 (gctx_selection g1))), w)
                         else λ w, Done ((1, Some (mkoqsx_gen_ctx
                                 (gctx_libctx g1) dup (gctx_oqs_name g1)
                                 (gctx_tls_name g1) (gctx_primitive g1)
                                 (gctx_selection g1))), w)) w3
                    | Fault => Fault
                    end
                | Fault => Fault
                end
     | None => λ w, Done ((1, Some g1), w)
     end) w1 = Done ((r, genctx'), w') →
    match OSSL_PARAM_locate_const params OSSL_KDF_PARAM_PROPERTIES with
    | None =>
        r = 1 ∧ w' = w1
        ∧ genctx' = Some (mkoqsx_gen_ctx (gctx_libctx gctx) (gctx_propq gctx)
                            (gctx_oqs_name gctx) tls (gctx_primitive gctx)
                            (gctx_selection gctx))
    | Some p =>
        if negb (data_type p =? OSSL_PARAM_UTF8_STRING)
        then r = 0 ∧ w' = w1
             ∧ genctx' = Some (mkoqsx_gen_ctx (gctx_libctx gctx)
                                 (gctx_propq gctx) (gctx_oqs_name gctx) tls
                                 (gctx_primitive gctx) (gctx_selection gctx))
        else
          ∃ dup w2,
            OPENSSL_free (gctx_propq gctx) w1 = Done (tt, w2)
            ∧ OPENSSL_strdup_ptr (data p) w2 = Done (dup, w')
            ∧ r = (if is_null dup then 0 else 1)
            ∧ genctx' = Some (mkoqsx_gen_ctx (gctx_libctx gctx) dup
                                (gctx_oqs_name gctx) tls
                                (gctx_primitive gctx) (gctx_selection gctx))
    end) as Tail.
  { intros tls w1. cbv zeta. cbn [gctx_libctx gctx_propq gctx_oqs_name
      gctx_tls_name gctx_primitive gctx_selection].
    destruct (OSSL_PARAM_locate_const params OSSL_KDF_PARAM_PROPERTIES) as [p|].
    - destruct (negb (data_type p =? OSSL_PARAM_UTF8_STRING)).
      + intros [= <- <- <-]. auto.
      + destruct (OPENSSL_free (gctx_propq gctx) w1) as [[[] w2]|] eqn:F;
          [|discriminate].
        destruct (OPENSSL_strdup_ptr (data p) w2) as [[dup w3]|] eqn:Q;
          [|discriminate].
        destruct dup; simpl; intros [= <- <- <-]; eexists _, _;
          (split; [reflexivity|]); (split; [exact Q|]); auto.
    - intros [= <- <- <-]. auto. }
  intros E.
  destruct (OSSL_PARAM_locate_const params OSSL_PKEY_PARAM_GROUP_NAME) as [pg|].
  - destruct (OPENSSL_strdup_ptr (data pg) w) as [[dup w0]|] eqn:Q;
      [|discriminate].
    apply OPENSSL_strdup_ptr_world in Q as (R & _).
    exists dup, w0. split; [exact R|]. apply Tail. exact E.
  - exists (gctx_tls_name gctx), w. split; [reflexivity|]. apply Tail.
    destruct gctx. exact E.
Qed.

Lemma oqsx_gen_set_params_frame
    (gctx : @oqsx_gen_ctx OSSL_LIB_CTX) (params : option (list OSSL_PARAM))
    (r : Z) (genctx' : option oqsx_gen_ctx) (w w' : World) :
  oqsx_gen_set_params (Some gctx) params w = Done ((r, genctx'), w') →
  ∃ g', genctx' = Some g'
        ∧ gctx_oqs_name g' = gctx_oqs_name gctx
        ∧ gctx_primitive g' = gctx_primitive gctx
        ∧ gctx_selection g' = gctx_selection gctx
        ∧ gctx_libctx g' = gctx_libctx gctx.
Proof.
  intros E. apply oqsx_gen_set_params_inv in E as (tls & w1 & _ & E).
  destruct (OSSL_PARAM_locate_const params OSSL_KDF_PARAM_PROPERTIES) as [p|].
  - destruct (negb (data_type p =? OSSL_PARAM_UTF8_STRING)).
    + destruct E as (_ & _ & ->). eexists. simpl. auto.
    + destruct E as (dup & w2 & _ & _ & _ & ->). eexists. simpl. auto.
  - destruct E as (_ & _ & ->). eexists. simpl. auto.
Qed.

(** Whatever the parameters, [oqsx_gen_set_params] leaves the algorithm
    name, the primitive, the selection and the library context of the
    generation context as they were. *)
Theorem oqsx_gen_set_params_keeps_algorithm
    (gctx : @oqsx_gen_ctx OSSL_LIB_CTX) (params : option (list OSSL_PARAM))
    (r : Z) (genctx' : option oqsx_gen_ctx) (w w' : World) :
  oqsx_gen_set_params (Some gctx) params w = Done ((r, genctx'), w') →
  ∃ g', genctx' = Some g'
        ∧ gctx_oqs_name g' = gctx_oqs_name gctx
        ∧ gctx_primitive g' = gctx_primitive gctx
        ∧ gctx_selection g' = gctx_selection gctx
        ∧ gctx_libctx g' = gctx_libctx gctx.
Proof. apply oqsx_gen_set_params_frame. Qed.

(** A property query that is not a UTF-8 string makes [oqsx_gen_set_params]
    answer 0; when no group name comes with it, the generation context, its
    property query included, and the world are as before. *)
Theorem oqsx_gen_set_params_wrong_type
    (gctx : @oqsx_gen_ctx OSSL_LIB_CTX) (params : option (list OSSL_PARAM))
    (p : OSSL_PARAM) (w : World) :
  OSSL_PARAM_locate_const params OSSL_PKEY_PARAM_GROUP_NAME = None →
  OSSL_PARAM_locate_const params OSSL_KDF_PARAM_PROPERTIES = Some p →
  data_type p ≠ OSSL_PARAM_UTF8_STRING →
  oqsx_gen_set_params (Some gctx) params w = Done ((0, Some gctx), w).
Proof.
  intros G P T. unfold oqsx_gen_set_params. rewrite G, P. run.
  destruct (Z.eqb_spec (data_type p) OSSL_PARAM_UTF8_STRING); [contradiction|].
  reflexivity.
Qed.

(** The context that [oqsx_gen_init] builds and [oqsx_gen_set_params] then
    gives a property query carries the library context of the provider, the
    primitive and the selection it was created with, and the property query;
    its algorithm name is the one given, or null when the copy of the name
    could not be allocated, which [oqsx_gen_init] does not report. *)
Theorem oqsx_gen_init_then_set_params (provctx : PROVCTX) (selection : Z)
    (oqs_name : string) (primitive : Z) (params : option (list OSSL_PARAM))
    (p : OSSL_PARAM) (buf s : bytes) (g : oqsx_gen_ctx)
    (genctx' : option oqsx_gen_ctx) (w w1 w2 : World) :
  oqsx_gen_init PROV_OQS_LIBCTX_OF provctx selection oqs_name primitive w
  = Done (Some g, w1) →
  oqsx_gen_set_params (Some g) params w1 = Done ((1, genctx'), w2) →
  OSSL_PARAM_locate_const params OSSL_KDF_PARAM_PROPERTIES = Some p →
  data p = Some buf → c_string buf = Done s →
  ∃ g', genctx' = Some g'
        ∧ gctx_libctx g' = PROV_OQS_LIBCTX_OF provctx
        ∧ gctx_primitive g' = primitive
        ∧ gctx_selection g' = selection
        ∧ gctx_propq g' = Some s
        ∧ gctx_oqs_name g'
          = (if bool_decide (allocs w !! 1%nat = Some false)
             then None else Some oqs_name).
Proof.
  intros I E P D C.
  assert (gctx_libctx g = PROV_OQS_LIBCTX_OF provctx
          ∧ gctx_primitive g = primitive ∧ gctx_selection g = selection
          ∧ gctx_oqs_name g
            = (if bool_decide (allocs w !! 1%nat = Some false)
               then None else Some oqs_name)) as (L0 & P0 & S0 & N0).
  { unfold oqsx_gen_init, OPENSSL_strdup_name, allocate in I. run.
    destruct w as [[|[] [|[] rest]] e rl d]; simpl in I;
      try discriminate; injection I as <- _; auto. }
  destruct (oqsx_gen_set_params_frame g params 1 genctx' w1 w2 E)
    as (g' & -> & N & Pr & S & L).
  exists g'. split; [reflexivity|].
  rewrite N, Pr, S, L. repeat split; auto.
  apply oqsx_gen_set_params_inv in E as (tls & w3 & _ & E).
  rewrite P in E.
  destruct (negb (data_type p =? OSSL_PARAM_UTF8_STRING));
    [destruct E as (E & _); discriminate E|].
  destruct E as (dup & w4 & _ & Q & R & [= ->]).
  apply OPENSSL_strdup_ptr_world in Q as (_ & _ & Q).
  specialize (Q buf s D C). simpl. rewrite Q in *.
  destruct (next_allocation w4); [reflexivity | discriminate R].
Qed.



End GenerationProperties.

Lemma oqsx_gen_set_params_keeps_algorithm_witness :
  ∃ g' w',
    oqsx_gen_set_params (Some sample_gctx)
      (Some [sample_group; sample_properties OSSL_PARAM_UTF8_STRING]) quiet
    = Done ((1, Some g'), w')
    ∧ gctx_tls_name g' = Some [Byte.x78]
    ∧ gctx_oqs_name g' = Some "sample-kem"%string
    ∧ gctx_selection g' = OSSL_KEYMGMT_SELECT_KEYPAIR.
Proof.
  eexists _, _. split; [cbv; reflexivity|]. split; [reflexivity|].
  destruct (oqsx_gen_set_params_keeps_algorithm sample_gctx
              (Some [sample_group; sample_properties OSSL_PARAM_UTF8_STRING])
              1 _ quiet _ eq_refl) as (g' & Hg & N & _ & S & _).
  injection Hg as <-. split; [exact N | exact S].
Defined.

Lemma oqsx_gen_set_params_wrong_type_witness :
  oqsx_gen_set_params (Some sample_gctx)
    (Some [sample_properties OSSL_PARAM_OCTET_STRING]) quiet
  = Done ((0, Some sample_gctx), quiet).
Proof.
  apply (oqsx_gen_set_params_wrong_type sample_gctx
           (Some [sample_properties OSSL_PARAM_OCTET_STRING])
           (sample_properties OSSL_PARAM_OCTET_STRING) quiet);
    try reflexivity.
  discriminate.
Defined.

Lemma oqsx_gen_init_then_set_params_witness :
  ∃ g w1 g' w2,
    oqsx_gen_init (λ _ : unit, tt) tt OSSL_KEYMGMT_SELECT_KEYPAIR
      "sample-kem" 0 (mkWorld [true; false] [] [] [])
    = Done (Some g, w1)
    ∧ oqsx_gen_set_params (Some g)
        (Some [sample_properties OSSL_PARAM_UTF8_STRING]) w1
      = Done ((1, Some g'), w2)
    ∧ gctx_propq g' = Some [Byte.x61; Byte.x3d; Byte.x62]
    ∧ gctx_oqs_name g' = None.
Proof.
  eexists _, _, _, _. split; [cbv; reflexivity|]. split; [cbv; reflexivity|].
  destruct (oqsx_gen_init_then_set_params (λ _ : unit, tt) tt
              OSSL_KEYMGMT_SELECT_KEYPAIR "sample-kem" 0
              (Some [sample_properties OSSL_PARAM_UTF8_STRING])
              (sample_properties OSSL_PARAM_UTF8_STRING) sample_query
              [Byte.x61; Byte.x3d; Byte.x62] _ _
              (mkWorld [true; false] [] [] []) _ _
              eq_refl eq_refl eq_refl eq_refl eq_refl)
    as (g' & Hg & _ & _ & _ & Q & N).
  injection Hg as <-. split; [exact Q | exact N].
Defined.


